(** * Weather cache backend: the cache handlers of [backend/main.py]

    A shallow embedding of the two cache handlers, [check_cache] and
    [write_cache], with the module-level state they use: the optional
    Elasticsearch client, the tracer, the clock and standard output.

    Modelling conventions.
    - A Python [str] is a Rocq [string]; [lower] acts on the ASCII
      letters, so the model is exact for ASCII city names.
    - A Python value that travels through JSON (request payload, stored
      document, response body) is a [value]; a [dict] is an association
      list in insertion order.
    - An instant is a number of microseconds ([Z]), the resolution of
      [datetime]; [total_seconds] is the exact rational number of seconds.
      Python returns the nearest double, which compares with [3600] and
      truncates with [int] exactly as the rational does for every age
      within a few centuries of zero.
    - The handlers run in a state-and-exception monad over [world]; an
      exception leaves the side effects done before it in place.
    - The Elasticsearch cluster, the tracer and [datetime]'s ISO-8601
      codec are collaborators: the cluster is a keyed document map with
      injectable faults, the tracer and the codec are interfaces. *)

From Stdlib Require Import Ascii String ZArith QArith Qround Lia.
From stdpp Require Import base strings gmap pretty.

Local Open Scope string_scope.
Local Open Scope Z_scope.

#[local] Set Warnings "-register-all".

(** ** Python strings *)

Module Str.

(** [c.lower()] for one character: the ASCII letters A-Z move to a-z. *)
Definition lower_char (c : ascii) : ascii :=
  let n := nat_of_ascii c in
  if (65 <=? n)%nat && (n <=? 90)%nat then ascii_of_nat (n + 32) else c.

(** [s.lower()]. *)
Fixpoint lower (s : string) : string :=
  match s with
  | EmptyString => EmptyString
  | String c s' => String (lower_char c) (lower s')
  end.

(** [s.replace(old, new)] for a one-character [old], which is what
    both call sites of the handlers pass. *)
Fixpoint replace (old : ascii) (new : string) (s : string) : string :=
  match s with
  | EmptyString => EmptyString
  | String c s' =>
      if Ascii.eqb c old then new +:+ replace old new s'
      else String c (replace old new s')
  end.



End Str.

(** ** Python values *)

Inductive value : Type :=
| VNone
| VBool (b : bool)
| VInt (n : Z)
| VStr (s : string)
| VList (l : list value)
| VDict (d : list (string * value)).

Abbreviation dict := (list (string * value)).

(** Exceptions deriving from [Exception], as the handlers observe them:
    [type(e).__name__] and [str(e)]. *)
Record exn : Type := Exn { exn_name : string; exn_str : string }.

(** What a handler can raise: an arbitrary exception from a
    collaborator, or FastAPI's [HTTPException]. *)
Inductive raised : Type :=
| Raised (e : exn)
| HTTPException (status_code : Z) (detail : string).

(** Error types into which collaborator exceptions can be raised. *)
Class Throws (E : Type) := throw_exn : exn → E.
#[global] Instance throws_exn : Throws exn := λ e, e.
#[global] Instance throws_raised : Throws raised := Raised.

Module Py.

(** Truth value of a Python object, as [not x] tests it. *)
Definition truthy (v : value) : bool :=
  match v with
  | VNone => false
  | VBool b => b
  | VInt n => negb (n =? 0)
  | VStr s => negb (String.eqb s EmptyString)
  | VList l => match l with [] => false | _ => true end
  | VDict d => match d with [] => false | _ => true end
  end.

(** The entry of key [k], if any. *)
Fixpoint lookup (k : string) (d : dict) : option value :=
  match d with
  | [] => None
  | (k', v) :: d' => if String.eqb k' k then Some v else lookup k d'
  end.

(** [d.get(k, default)]. *)
Definition get (d : dict) (k : string) (default : value) : value :=
  match lookup k d with Some v => v | None => default end.

(** [repr(k)] of a key without quotes or backslashes. *)
Definition repr (k : string) : string := "'" +:+ k +:+ "'".

Definition type_name (v : value) : string :=
  match v with
  | VNone => "NoneType"
  | VBool _ => "bool"
  | VInt _ => "int"
  | VStr _ => "str"
  | VList _ => "list"
  | VDict _ => "dict"
  end.

(** [v[k]] for a string key [k]. *)
Definition getitem (v : value) (k : string) : exn + value :=
  match v with
  | VDict d =>
      match lookup k d with
      | Some x => inr x
      | None => inl (Exn "KeyError" (repr k))
      end
  | VStr _ => inl (Exn "TypeError" "string indices must be integers")
  | VList _ => inl (Exn "TypeError" "list indices must be integers or slices, not str")
  | _ => inl (Exn "TypeError" ("'" +:+ type_name v +:+ "' object is not subscriptable"))
  end.

(** [v.replace(old, new)]: only [str] has the method. *)
Definition replace (v : value) (old : ascii) (new : string) : exn + string :=
  match v with
  | VStr s => inr (Str.replace old new s)
  | _ => inl (Exn "AttributeError"
               ("'" +:+ type_name v +:+ "' object has no attribute 'replace'"))
  end.

(** [str(b)] for a bool. *)
Definition str_bool (b : bool) : string := if b then "True" else "False".

End Py.

(** ** Dates and durations *)

(** A [datetime]: the wall-clock reading in microseconds since the epoch
    and the UTC offset of its [tzinfo], [None] for a naive value. *)
Record datetime : Type := Datetime { dt_wall : Z; dt_utcoffset : option Z }.

(** A [timedelta], in microseconds. *)
Definition timedelta := Z.

Module DT.

(** An aware value in UTC, as [datetime.now(timezone.utc)] returns. *)
Definition utc (us : Z) : datetime := Datetime us (Some 0).

(** [a - b]; mixing naive and aware values is a [TypeError]. *)
Definition sub (a b : datetime) : exn + timedelta :=
  match dt_utcoffset a, dt_utcoffset b with
  | Some oa, Some ob => inr ((dt_wall a - oa) - (dt_wall b - ob))
  | None, None => inr (dt_wall a - dt_wall b)
  | _, _ => inl (Exn "TypeError" "can't subtract offset-naive and offset-aware datetimes")
  end.

(** [d.total_seconds()]. *)
Definition total_seconds (d : timedelta) : Q := d # 1000000.

(** [int(x)]: truncation toward zero. *)
Definition int (x : Q) : Z := Z.quot (Qnum x) (Z.pos (Qden x)).

(** [x < n] for an integer literal [n]. *)
Definition ltb (x : Q) (n : Z) : bool := negb (Qle_bool (inject_Z n) x).

End DT.

(** The ISO-8601 codec of [datetime]. *)
Class IsoCodec : Type := {
  fromisoformat : string → exn + datetime;
  isoformat : datetime → string
}.

(** ** The Elasticsearch cluster *)

(** The client object built at start-up from the endpoint and the key. *)
Record Elasticsearch : Type := EsClient { es_hosts : string; es_api_key : string }.

(** The two requests the handlers issue. *)
Inductive es_request : Type :=
| EsGet (index id : string)
| EsIndex (index id : string) (document : value).

(** The cluster: the documents by (index, id), the fault it answers a
    request with, if any, and the requests received so far. *)
Record es_cluster : Type := EsCluster {
  es_docs : gmap (string * string) value;
  es_fault : es_request → option exn;
  es_log : list es_request
}.

Module ES.

Definition received (r : es_request) (c : es_cluster) : es_cluster :=
  EsCluster (es_docs c) (es_fault c) (es_log c ++ [r]).

(** [client.get(index=, id=, ignore=[404])]: a missing document is
    answered with a body whose ["found"] is false, not with an
    exception. *)
Definition get (index id : string) (c : es_cluster) : (exn + dict) * es_cluster :=
  let c' := received (EsGet index id) c in
  match es_fault c (EsGet index id) with
  | Some e => (inl e, c')
  | None =>
      match es_docs c !! (index, id) with
      | Some src =>
          (inr [("_index", VStr index); ("_id", VStr id);
                ("found", VBool true); ("_source", src)], c')
      | None =>
          (inr [("_index", VStr index); ("_id", VStr id);
                ("found", VBool false)], c')
      end
  end.

(** [client.index(index=, id=, document=)]: create or replace the
    document of that id. *)
Definition index (index id : string) (document : value) (c : es_cluster)
  : (exn + dict) * es_cluster :=
  let c' := received (EsIndex index id document) c in
  match es_fault c (EsIndex index id document) with
  | Some e => (inl e, c')
  | None =>
      (inr [("_index", VStr index); ("_id", VStr id);
            ("result", VStr (match es_docs c !! (index, id) with
                              | Some _ => "updated"
                              | None => "created"
                              end))],
       EsCluster (<[(index, id) := document]> (es_docs c)) (es_fault c) (es_log c'))
  end.

End ES.

(** ** The tracer *)

(** Values of span attributes. *)
Inductive attr : Type :=
| AStr (s : string)
| ABool (b : bool)
| AInt (n : Z).

(** A tracer over its own state [T]: entering the [with] block of
    [start_as_current_span], [span.set_attribute] on the current span,
    and leaving the block ([true] when an exception leaves it). Each
    may raise. *)
Record Tracer (T : Type) : Type := {
  start_as_current_span : string → T → exn + T;
  set_attribute : string → attr → T → exn + T;
  end_span : bool → T → exn + T
}.
Arguments start_as_current_span {T} _ _ _.
Arguments set_attribute {T} _ _ _ _.
Arguments end_span {T} _ _ _.

(** ** The world and the handler monad *)

(** The module-level state of [main.py] and its environment. *)
Record world (T : Type) : Type := World {
  es_client : option Elasticsearch;
  cluster : es_cluster;
  CACHE_INDEX : string;
  tracer_state : T;
  clock : Z;
  stdout : list string
}.
Arguments World {T} _ _ _ _ _ _.
Arguments es_client {T} _.
Arguments cluster {T} _.
Arguments CACHE_INDEX {T} _.
Arguments tracer_state {T} _.
Arguments clock {T} _.
Arguments stdout {T} _.

Definition set_cluster {T} (c : es_cluster) (w : world T) : world T :=
  World (es_client w) c (CACHE_INDEX w) (tracer_state w) (clock w) (stdout w).

Definition set_tracer_state {T U} (t : U) (w : world T) : world U :=
  World (es_client w) (cluster w) (CACHE_INDEX w) t (clock w) (stdout w).

Definition set_stdout {T} (out : list string) (w : world T) : world T :=
  World (es_client w) (cluster w) (CACHE_INDEX w) (tracer_state w) (clock w) out.

(** A computation that returns an [A] or raises an [E], over the world. *)
Definition M (T E A : Type) : Type := world T → (E + A) * world T.

#[global] Instance M_ret {T E} : MRet (M T E) := λ A a w, (inr a, w).

#[global] Instance M_bind {T E} : MBind (M T E) := λ A B f m w,
  match m w with
  | (inl e, w') => (inl e, w')
  | (inr a, w') => f a w'
  end.

Section Effects.
Context {T : Type} (tr : Tracer T).

Definition raise {E A} (e : E) : M T E A := λ w, (inl e, w).

(** The outcome of a pure operation that may raise. *)
Definition py {E A} `{!Throws E} (r : exn + A) : M T E A := λ w,
  match r with
  | inl e => (inl (throw_exn e), w)
  | inr a => (inr a, w)
  end.

(** [try: body except Exception as e: handler e]. *)
Definition try_except {E A} (body : M T exn A) (handler : exn → M T E A)
  : M T E A := λ w,
  match body w with
  | (inl e, w') => handler e w'
  | (inr a, w') => (inr a, w')
  end.

Definition print {E} (line : string) : M T E unit := λ w,
  (inr (), set_stdout (stdout w ++ [line]) w).

(** [datetime.now(timezone.utc)]. *)
Definition now_utc {E} : M T E datetime := λ w, (inr (DT.utc (clock w)), w).

Definition es_get {E} `{!Throws E} (index id : string) : M T E dict := λ w,
  match ES.get index id (cluster w) with
  | (inl e, c) => (inl (throw_exn e), set_cluster c w)
  | (inr r, c) => (inr r, set_cluster c w)
  end.

Definition es_index {E} `{!Throws E} (index id : string) (document : value)
  : M T E dict := λ w,
  match ES.index index id document (cluster w) with
  | (inl e, c) => (inl (throw_exn e), set_cluster c w)
  | (inr r, c) => (inr r, set_cluster c w)
  end.

Definition span_set_attribute {E} `{!Throws E} (key : string) (v : attr)
  : M T E unit := λ w,
  match set_attribute tr key v (tracer_state w) with
  | inl e => (inl (throw_exn e), w)
  | inr t => (inr (), set_tracer_state t w)
  end.

(** [with tracer.start_as_current_span(name) as span: body]. *)
Definition with_span {E A} `{!Throws E} (name : string) (body : M T E A)
  : M T E A := λ w,
  match start_as_current_span tr name (tracer_state w) with
  | inl e => (inl (throw_exn e), w)
  | inr t =>
      let '(r, w') := body (set_tracer_state t w) in
      match end_span tr (match r with inl _ => true | inr _ => false end)
              (tracer_state w') with
      | inl e => (inl (throw_exn e), w')
      | inr t' => (r, set_tracer_state t' w')
      end
  end.

End Effects.

(** ** The handlers *)

(** The body of a write request. *)
Record CacheWriteRequest : Type := {
  city : string;
  weather_data : dict
}.

Section Handlers.
Context {T : Type} (tr : Tracer T) {iso : IsoCodec}.

(** [city.lower().replace(" ", "-")], the document id. *)
Definition doc_id_of (city : string) : string :=
  Str.replace " " "-" (Str.lower city).

(** [GET /api/cache/check]. *)
Definition check_cache (city : string) : M T exn value := λ w,
  match es_client w with
  | None =>
      (inr (VDict [("cached", VBool false); ("data", VNone);
                   ("reason", VStr "cache_disabled")]), w)
  | Some _ =>
      with_span tr "cache.check" (
        span_set_attribute tr "cache.backend" (AStr "elasticsearch");;
        span_set_attribute tr "cache.key" (AStr city);;
        try_except (
          let doc_id := doc_id_of city in
          result ← es_get (CACHE_INDEX w) doc_id;
          if negb (Py.truthy (Py.get result "found" (VBool false))) then
            span_set_attribute tr "cache.hit" (ABool false);;
            span_set_attribute tr "cache.miss_reason" (AStr "not_found");;
            print ("Cache miss for " +:+ city +:+ ": document not found");;
            mret (VDict [("cached", VBool false); ("data", VNone);
                         ("reason", VStr "not_found")])
          else
            cache_data ← py (Py.getitem (VDict result) "_source");
            timestamp ← py (Py.getitem cache_data "timestamp");
            text ← py (Py.replace timestamp "Z" "+00:00");
            cache_time ← py (fromisoformat text);
            now ← now_utc;
            delta ← py (DT.sub now cache_time);
            let age_seconds := DT.total_seconds delta in
            let is_fresh := DT.ltb age_seconds 3600 in
            span_set_attribute tr "cache.hit" (ABool true);;
            span_set_attribute tr "cache.age_seconds" (AInt (DT.int age_seconds));;
            span_set_attribute tr "cache.fresh" (ABool is_fresh);;
            print ("Cache hit for " +:+ city +:+ ", age: "
                   +:+ pretty (DT.int age_seconds) +:+ "s, fresh: "
                   +:+ Py.str_bool is_fresh);;
            if is_fresh then
              weather ← py (Py.getitem cache_data "weather");
              mret (VDict [("cached", VBool true); ("data", weather);
                           ("age_seconds", VInt (DT.int age_seconds))])
            else
              mret (VDict [("cached", VBool false); ("data", VNone);
                           ("reason", VStr "expired");
                           ("age_seconds", VInt (DT.int age_seconds))])
        ) (λ e,
          span_set_attribute tr "cache.hit" (ABool false);;
          span_set_attribute tr "cache.error" (AStr (exn_name e));;
          print ("Cache error for " +:+ city +:+ ": " +:+ exn_str e);;
          mret (VDict [("cached", VBool false); ("data", VNone);
                       ("reason", VStr "error")]))
      ) w
  end.

(** [POST /api/cache/write]. *)
Definition write_cache (request : CacheWriteRequest) : M T raised value := λ w,
  match es_client w with
  | None => (inl (HTTPException 503 "Cache not configured"), w)
  | Some _ =>
      with_span tr "cache.write" (
        span_set_attribute tr "cache.backend" (AStr "elasticsearch");;
        span_set_attribute tr "cache.key" (AStr (city request));;
        try_except (
          let doc_id := doc_id_of (city request) in
          now ← now_utc;
          let cache_doc :=
            VDict [("city", VStr (city request));
                   ("weather", VDict (weather_data request));
                   ("timestamp", VStr (isoformat now))] in
          es_index (CACHE_INDEX w) doc_id cache_doc;;
          span_set_attribute tr "cache.write.success" (ABool true);;
          print ("Cached weather data for " +:+ city request);;
          mret (VDict [("success", VBool true); ("city", VStr (city request))])
        ) (λ e,
          span_set_attribute tr "cache.write.success" (ABool false);;
          span_set_attribute tr "cache.error" (AStr (exn_str e));;
          print ("Cache write error for " +:+ city request +:+ ": " +:+ exn_str e);;
          raise (HTTPException 500 ("Cache write failed: " +:+ exn_str e)))
      ) w
  end.

End Handlers.

(** ** Two tracers *)

(** A span as the recording tracer keeps it. *)
Record span : Type := Span {
  span_name : string;
  span_attrs : gmap string attr;
  span_ended : bool;
  span_failed : bool
}.

Module Tracers.

(** The tracer that does nothing. *)
Definition noop : Tracer unit := {|
  start_as_current_span _ _ := inr ();
  set_attribute _ _ _ := inr ();
  end_span _ _ := inr ()
|}.

(** The tracer that keeps every span, the current one first. Setting
    an attribute overwrites the value of that key; an ended span
    ignores it. *)
Definition recorder : Tracer (list span) := {|
  start_as_current_span name t := inr (Span name ∅ false false :: t);
  set_attribute k v t :=
    match t with
    | s :: t' =>
        if span_ended s then inr t
        else inr (Span (span_name s) (<[k := v]> (span_attrs s)) false false :: t')
    | [] => inr []
    end;
  end_span failed t :=
    match t with
    | s :: t' => inr (Span (span_name s) (span_attrs s) true failed :: t')
    | [] => inr []
    end
|}.

(** A tracer whose [set_attribute] raises. *)
Definition broken : Tracer unit := {|
  start_as_current_span _ _ := inr ();
  set_attribute _ _ _ := inl (Exn "RuntimeError" "exporter down");
  end_span _ _ := inr ()
|}.

(** A tracer that cannot start a span. *)
Definition unstartable : Tracer unit := {|
  start_as_current_span _ _ := inl (Exn "RuntimeError" "no provider");
  set_attribute _ _ _ := inr ();
  end_span _ _ := inr ()
|}.

End Tracers.

(** ** An ISO-8601 codec

    [isoformat] as Python prints it and a [fromisoformat] that reads
    what [isoformat] prints; the instance the examples run with. *)

Module Iso8601.

(** Days since 1970-01-01 of a proleptic Gregorian date, and back. *)
Definition days_from_civil (y m d : Z) : Z :=
  let y := if m <=? 2 then y - 1 else y in
  let era := y / 400 in
  let yoe := y - era * 400 in
  let doy := (153 * (if 2 <? m then m - 3 else m + 9) + 2) / 5 + d - 1 in
  let doe := yoe * 365 + yoe / 4 - yoe / 100 + doy in
  era * 146097 + doe - 719468.

Definition civil_from_days (z : Z) : Z * Z * Z :=
  let z := z + 719468 in
  let era := z / 146097 in
  let doe := z - era * 146097 in
  let yoe := (doe - doe / 1460 + doe / 36524 - doe / 146096) / 365 in
  let doy := doe - (365 * yoe + yoe / 4 - yoe / 100) in
  let mp := (5 * doy + 2) / 153 in
  let d := doy - (153 * mp + 2) / 5 + 1 in
  let m := if mp <? 10 then mp + 3 else mp - 9 in
  (if m <=? 2 then yoe + era * 400 + 1 else yoe + era * 400, m, d).

(** [n] in decimal, padded with zeros to [width] digits. *)
Fixpoint digits (width : nat) (n : Z) : string :=
  match width with
  | O => EmptyString
  | S w => digits w (n / 10) +:+ String (ascii_of_nat (Z.to_nat (48 + n mod 10))) EmptyString
  end.

Definition format_offset (off : Z) : string :=
  let a := Z.abs off / 1000000 in
  (if off <? 0 then "-" else "+")
  +:+ digits 2 (a / 3600) +:+ ":" +:+ digits 2 (a / 60 mod 60)
  +:+ (if a mod 60 =? 0 then EmptyString else ":" +:+ digits 2 (a mod 60)).

Definition format (dt : datetime) : string :=
  let us := dt_wall dt in
  let '(y, m, d) := civil_from_days (us / 86400000000) in
  let t := us mod 86400000000 in
  digits 4 y +:+ "-" +:+ digits 2 m +:+ "-" +:+ digits 2 d +:+ "T"
  +:+ digits 2 (t / 3600000000) +:+ ":" +:+ digits 2 (t / 60000000 mod 60)
  +:+ ":" +:+ digits 2 (t / 1000000 mod 60)
  +:+ (if t mod 1000000 =? 0 then EmptyString else "." +:+ digits 6 (t mod 1000000))
  +:+ match dt_utcoffset dt with Some off => format_offset off | None => EmptyString end.

Definition digit (c : ascii) : option Z :=
  let n := Z.of_nat (nat_of_ascii c) in
  if (48 <=? n) && (n <=? 57) then Some (n - 48) else None.

(** Reads exactly [width] digits. *)
Fixpoint number (width : nat) (acc : Z) (s : string) : option (Z * string) :=
  match width, s with
  | O, _ => Some (acc, s)
  | S w, String c s' => d ← digit c; number w (10 * acc + d) s'
  | S _, EmptyString => None
  end.

Definition expect (c : ascii) (s : string) : option string :=
  match s with
  | String c' s' => if Ascii.eqb c c' then Some s' else None
  | EmptyString => None
  end.

Definition fraction (s : string) : option (Z * string) :=
  match s with
  | String "." s' => number 6 0 s'
  | _ => Some (0, s)
  end.

Definition offset (s : string) : option (option Z) :=
  match s with
  | EmptyString => Some None
  | String c s' =>
      sign ← (if Ascii.eqb c "+" then Some 1
              else if Ascii.eqb c "-" then Some (-1) else None);
      '(h, s1) ← number 2 0 s';
      s2 ← expect ":" s1;
      '(m, s3) ← number 2 0 s2;
      if String.eqb s3 EmptyString && (h <? 24) && (m <? 60)
      then Some (Some (sign * (h * 3600 + m * 60) * 1000000)) else None
  end.

Definition days_in_month (y m : Z) : Z :=
  days_from_civil (if m =? 12 then y + 1 else y) (if m =? 12 then 1 else m + 1) 1
  - days_from_civil y m 1.

Definition parse (s : string) : option datetime :=
  '(y, s) ← number 4 0 s; s ← expect "-" s;
  '(m, s) ← number 2 0 s; s ← expect "-" s;
  '(d, s) ← number 2 0 s;
  s ← match s with String _ s' => Some s' | EmptyString => None end;
  '(hh, s) ← number 2 0 s; s ← expect ":" s;
  '(mi, s) ← number 2 0 s; s ← expect ":" s;
  '(ss, s) ← number 2 0 s;
  '(us, s) ← fraction s;
  off ← offset s;
  if (1 <=? y) && (1 <=? m) && (m <=? 12) && (1 <=? d) && (d <=? days_in_month y m)
     && (hh <? 24) && (mi <? 60) && (ss <? 60)
  then Some (Datetime (((days_from_civil y m d * 24 + hh) * 60 + mi) * 60000000
                       + ss * 1000000 + us) off)
  else None.

Definition codec : IsoCodec := {|
  fromisoformat s :=
    match parse s with
    | Some dt => inr dt
    | None => inl (Exn "ValueError" ("Invalid isoformat string: " +:+ Py.repr s))
    end;
  isoformat := format
|}.

End Iso8601.

(** ** Vocabulary of the statements *)

(** The response bodies of [check_cache] and [write_cache]. *)
Definition disabled_response : value :=
  VDict [("cached", VBool false); ("data", VNone); ("reason", VStr "cache_disabled")].

Definition not_found_response : value :=
  VDict [("cached", VBool false); ("data", VNone); ("reason", VStr "not_found")].

Definition hit_response (data : value) (age : Z) : value :=
  VDict [("cached", VBool true); ("data", data); ("age_seconds", VInt age)].

Definition expired_response (age : Z) : value :=
  VDict [("cached", VBool false); ("data", VNone); ("reason", VStr "expired");
         ("age_seconds", VInt age)].

Definition error_response : value :=
  VDict [("cached", VBool false); ("data", VNone); ("reason", VStr "error")].

Definition success_response (city : string) : value :=
  VDict [("success", VBool true); ("city", VStr city)].

(** The record [write_cache] stores. *)
Definition cache_doc {iso : IsoCodec} (request : CacheWriteRequest) (now : Z) : value :=
  VDict [("city", VStr (city request));
         ("weather", VDict (weather_data request));
         ("timestamp", VStr (isoformat (DT.utc now)))].

(** The time-to-live, in microseconds. *)
Definition TTL_us : Z := 3600 * 1000000.

(** None of the tracer's operations raises. *)
Definition never_raises {T} (tr : Tracer T) : Prop :=
  (∀ name t, ∃ t', start_as_current_span tr name t = inr t')
  ∧ (∀ k v t, ∃ t', set_attribute tr k v t = inr t')
  ∧ (∀ failed t, ∃ t', end_span tr failed t = inr t').

(** The same world at another reading of the clock. *)
Definition at_time {T} (t : Z) (w : world T) : world T :=
  World (es_client w) (cluster w) (CACHE_INDEX w) (tracer_state w) t (stdout w).

(** The document the store holds for a city. *)
Definition stored {T} (w : world T) (city : string) : option value :=
  es_docs (cluster w) !! (CACHE_INDEX w, doc_id_of city).

(** The fault, if any, the store answers the read for a city with. *)
Definition get_fault {T} (w : world T) (city : string) : option exn :=
  es_fault (cluster w) (EsGet (CACHE_INDEX w) (doc_id_of city)).

(** The fault, if any, the store answers a write request with. *)
Definition index_fault {T} {iso : IsoCodec} (w : world T) (request : CacheWriteRequest)
  : option exn :=
  es_fault (cluster w)
    (EsIndex (CACHE_INDEX w) (doc_id_of (city request)) (cache_doc request (clock w))).

(** The age of a stored document at the clock of [w]: the duration the
    handler computes from its timestamp, when it can. *)
Definition age_of {T} {iso : IsoCodec} (w : world T) (src : value) : exn + timedelta :=
  match Py.getitem src "timestamp" with
  | inl e => inl e
  | inr ts =>
      match Py.replace ts "Z" "+00:00" with
      | inl e => inl e
      | inr text =>
          match fromisoformat text with
          | inl e => inl e
          | inr cache_time => DT.sub (DT.utc (clock w)) cache_time
          end
      end
  end.

(** What the lookup of [check_cache] comes to, before the [except]
    clause: the response, or the exception the clause will catch. *)
Definition check_outcome {T} {iso : IsoCodec} (w : world T) (city : string) : exn + value :=
  match get_fault w city with
  | Some e => inl e
  | None =>
      match stored w city with
      | None => inr not_found_response
      | Some src =>
          match age_of w src with
          | inl e => inl e
          | inr delta =>
              let age_seconds := DT.total_seconds delta in
              if DT.ltb age_seconds 3600 then
                match Py.getitem src "weather" with
                | inl e => inl e
                | inr weather => inr (hit_response weather (DT.int age_seconds))
                end
              else inr (expired_response (DT.int age_seconds))
          end
      end
  end.

(** A fault on the read path other than a clean miss: the store raises
    on the read; or the stored document yields no age (no timestamp, a
    timestamp that is not a string or not ISO-8601, or one without a
    time zone); or a fresh document has no weather. *)
Inductive read_fault {T} {iso : IsoCodec} (w : world T) (city : string) : Prop :=
| store_raises (e : exn) :
    get_fault w city = Some e → read_fault w city
| timestamp_unusable (src : value) (e : exn) :
    get_fault w city = None → stored w city = Some src →
    age_of w src = inl e → read_fault w city
| weather_missing (src : value) (delta : timedelta) (e : exn) :
    get_fault w city = None → stored w city = Some src →
    age_of w src = inr delta → delta < TTL_us →
    Py.getitem src "weather" = inl e → read_fault w city.

(** ** A scenario to run the handlers on *)

Module Scenario.

Definition codec : IsoCodec := Iso8601.codec.

Definition client : Elasticsearch := EsClient "https://es.example:443" "secret".

(** An empty cluster that answers every request. *)
Definition healthy : es_cluster := EsCluster ∅ (λ _, None) [].

(** An empty cluster that refuses every connection. *)
Definition unreachable : es_cluster :=
  EsCluster ∅ (λ _, Some (Exn "ConnectionError" "Connection refused")) [].

(** 2023-11-14T22:13:20Z. *)
Definition t0 : Z := 1700000000000000.

Definition seconds (n : Z) : Z := n * 1000000.

(** The service just started, with the recording tracer. *)
Definition boot (c : es_cluster) : world (list span) :=
  World (Some client) c "weather-cache" [] t0 [].

(** The service started without a store. *)
Definition disabled : world (list span) :=
  World None healthy "weather-cache" [] t0 [].

Definition new_york : CacheWriteRequest :=
  {| city := "New York"; weather_data := [("temp", VInt 72)] |}.

(** After [POST /api/cache/write] of [new_york] at [t0]. *)
Definition written : world (list span) :=
  (write_cache (iso := codec) Tracers.recorder new_york (boot healthy)).2.

(** A cluster holding, for Oslo, a document some other writer left. *)
Definition foreign (doc : value) : es_cluster :=
  EsCluster {[ ("weather-cache", "oslo") := doc ]} (λ _, None) [].

Definition no_timestamp : value :=
  VDict [("city", VStr "Oslo"); ("weather", VDict [("temp", VInt 3)])].

Definition malformed_timestamp : value :=
  VDict [("city", VStr "Oslo"); ("weather", VDict [("temp", VInt 3)]);
         ("timestamp", VStr "yesterday")].

Definition naive_timestamp : value :=
  VDict [("city", VStr "Oslo"); ("weather", VDict [("temp", VInt 3)]);
         ("timestamp", VStr "2023-11-14T22:13:20")].

Definition zulu_timestamp : value :=
  VDict [("city", VStr "Oslo"); ("weather", VDict [("temp", VInt 3)]);
         ("timestamp", VStr "2023-11-14T22:13:20Z")].

Definition no_weather : value :=
  VDict [("city", VStr "Oslo"); ("timestamp", VStr "2023-11-14T22:13:20+00:00")].

(** The payload of [new_york], as stored and returned. *)
Definition temp72 : value := VDict [("temp", VInt 72)].

(** The same start-up with a tracer that has no state. *)
Definition boot_unit (c : es_cluster) : world unit :=
  World (Some client) c "weather-cache" () t0 [].

End Scenario.

(** ** The rest of the module: configuration, start-up, status *)

Module Text.

(** [s.rstrip(c)] for a one-character set [c]. *)
Fixpoint rstrip (c : ascii) (s : string) : string :=
  match s with
  | EmptyString => EmptyString
  | String a s' =>
      match rstrip c s' with
      | EmptyString => if Ascii.eqb a c then EmptyString else String a EmptyString
      | r => String a r
      end
  end.

(** [s[n:]]. *)
Fixpoint skip (n : nat) (s : string) : string :=
  match n, s with
  | S n', String _ s' => skip n' s'
  | _, _ => s
  end.

(** [s.replace(old, new)] for an empty [old]: [new] before every
    character and at the end. *)
Fixpoint interleave (new s : string) : string :=
  match s with
  | EmptyString => new
  | String c s' => new +:+ String c (interleave new s')
  end.

(** The scan of [s.replace(old, new)] for a non-empty [old]: left to
    right, occurrences do not overlap. [fuel] bounds the characters
    still to read. *)
Fixpoint replace_from (fuel : nat) (old new s : string) : string :=
  match fuel, s with
  | S fuel', String c s' =>
      if String.prefix old s
      then new +:+ replace_from fuel' old new (skip (String.length old) s)
      else String c (replace_from fuel' old new s')
  | _, _ => s
  end.

(** [s.replace(old, new)]. *)
Definition replace (old new s : string) : string :=
  match old with
  | EmptyString => interleave new s
  | String _ _ => replace_from (String.length s) old new s
  end.

(** [s.endswith(c)] for a one-character [c]. *)
Fixpoint ends_with (c : ascii) (s : string) : bool :=
  match s with
  | EmptyString => false
  | String a s' =>
      match s' with
      | EmptyString => Ascii.eqb a c
      | String _ _ => ends_with c s'
      end
  end.

(** [c in s]. *)
Fixpoint contains (c : ascii) (s : string) : bool :=
  match s with
  | EmptyString => false
  | String a s' => Ascii.eqb a c || contains c s'
  end.

(** Every character of [s] is [c]. *)
Fixpoint only (c : ascii) (s : string) : bool :=
  match s with
  | EmptyString => true
  | String a s' => Ascii.eqb a c && only c s'
  end.

(** An ASCII capital letter. *)
Definition is_upper (c : ascii) : bool :=
  let n := nat_of_ascii c in (65 <=? n)%nat && (n <=? 90)%nat.

(** Some character of [s] is an ASCII capital. *)
Fixpoint has_upper (s : string) : bool :=
  match s with
  | EmptyString => false
  | String a s' => is_upper a || has_upper s'
  end.

End Text.

(** The administrative requests of start-up. *)
Inductive admin_request : Type :=
| IndicesExists (index : string)
| IndicesCreate (index : string) (mappings : value).

(** The cluster as start-up sees it: the indices with their mappings,
    the fault a request is answered with, if any, and the requests
    received so far. *)
Record es_admin : Type := EsAdmin {
  adm_indices : gmap string value;
  adm_fault : admin_request → option exn;
  adm_log : list admin_request
}.

Module Indices.

Definition received (r : admin_request) (a : es_admin) : es_admin :=
  EsAdmin (adm_indices a) (adm_fault a) (adm_log a ++ [r]).

(** [client.indices.exists(index=)]. *)
Definition exists_ (index : string) (a : es_admin) : (exn + bool) * es_admin :=
  let a' := received (IndicesExists index) a in
  match adm_fault a (IndicesExists index) with
  | Some e => (inl e, a')
  | None =>
      (inr (match adm_indices a !! index with Some _ => true | None => false end), a')
  end.

(** [client.indices.create(index=, mappings=)]: an index of that name
    must not exist yet. *)
Definition create (index : string) (mappings : value) (a : es_admin)
  : (exn + dict) * es_admin :=
  let a' := received (IndicesCreate index mappings) a in
  match adm_fault a (IndicesCreate index mappings) with
  | Some e => (inl e, a')
  | None =>
      match adm_indices a !! index with
      | Some _ =>
          (inl (Exn "RequestError" "resource_already_exists_exception"), a')
      | None =>
          (inr [("acknowledged", VBool true); ("index", VStr index)],
           EsAdmin (<[index := mappings]> (adm_indices a)) (adm_fault a) (adm_log a'))
      end
  end.

End Indices.

Module Startup.

(** [os.getenv(key, default)]. *)
Definition getenv (environ : gmap string string) (key default : string) : string :=
  match environ !! key with Some v => v | None => default end.

(** The expression that [ES_ENDPOINT] is bound to, on the raw setting. *)
Definition normalize_endpoint (raw : string) : string :=
  Text.replace "/:9200" ":9200" (Text.replace "/:443" ":443" (Text.rstrip "/" raw)).

(** The mappings start-up creates the cache index with. *)
Definition mappings : value :=
  VDict [("properties",
          VDict [("city", VDict [("type", VStr "keyword")]);
                 ("timestamp", VDict [("type", VStr "date")]);
                 ("weather", VDict [("type", VStr "object"); ("enabled", VBool false)])])].

(** The module-level names bound at import. *)
Record globals : Type := Globals {
  ES_ENDPOINT : string;
  ES_API_KEY : option string;
  CACHE_INDEX : string;
  es_client : option Elasticsearch
}.

(** What start-up acts on: the cluster and standard output. *)
Record state : Type := State { admin : es_admin; out : list string }.

Definition print (line : string) (st : state) : state :=
  State (admin st) (out st ++ [line]).

(** The [try] block of start-up, with its [except] clause: make sure
    the cache index exists. *)
Definition ensure_index (index : string) (st : state) : state :=
  match Indices.exists_ index (admin st) with
  | (inl e, a) =>
      print ("Error checking/creating index: " +:+ exn_str e) (State a (out st))
  | (inr true, a) =>
      print ("Index " +:+ index +:+ " already exists") (State a (out st))
  | (inr false, a) =>
      match Indices.create index mappings a with
      | (inl e, a') =>
          print ("Error checking/creating index: " +:+ exn_str e) (State a' (out st))
      | (inr _, a') =>
          print ("Created index: " +:+ index) (State a' (out st))
      end
  end.

(** Lines 52 to 84 of [main.py]. [connect] is the constructor
    [Elasticsearch([endpoint], api_key=key)], which may refuse its
    arguments; it is called outside the [try]. *)
Definition startup (connect : string → string → exn + Elasticsearch)
    (environ : gmap string string) (st : state) : (exn + globals) * state :=
  let ES_ENDPOINT := normalize_endpoint (getenv environ "ELASTICSEARCH_ENDPOINT" EmptyString) in
  let ES_API_KEY := environ !! "ELASTICSEARCH_API" in
  let CACHE_INDEX := getenv environ "CACHE_INDEX" "weather-cache" in
  let st := print ("Elasticsearch endpoint: " +:+ ES_ENDPOINT) st in
  let st := print ("Cache index: " +:+ CACHE_INDEX) st in
  match ES_API_KEY with
  | Some key =>
      if negb (String.eqb ES_ENDPOINT EmptyString) && negb (String.eqb key EmptyString)
      then
        match connect ES_ENDPOINT key with
        | inl e => (inl e, st)
        | inr client =>
            (inr (Globals ES_ENDPOINT ES_API_KEY CACHE_INDEX (Some client)),
             ensure_index CACHE_INDEX st)
        end
      else (inr (Globals ES_ENDPOINT ES_API_KEY CACHE_INDEX None), st)
  | None => (inr (Globals ES_ENDPOINT ES_API_KEY CACHE_INDEX None), st)
  end.

(** The endpoint and the index name start-up binds. *)
Definition endpoint_of (environ : gmap string string) : string :=
  normalize_endpoint (getenv environ "ELASTICSEARCH_ENDPOINT" EmptyString).

Definition index_of (environ : gmap string string) : string :=
  getenv environ "CACHE_INDEX" "weather-cache".

(** The state once the two settings are printed. *)
Definition announced (environ : gmap string string) (st : state) : state :=
  print ("Cache index: " +:+ index_of environ)
    (print ("Elasticsearch endpoint: " +:+ endpoint_of environ) st).

(** A constructor that accepts every endpoint. *)
Definition connect_any (endpoint key : string) : exn + Elasticsearch :=
  inr (EsClient endpoint key).

End Startup.

(** The world the handlers run in once start-up has bound [g]. *)
Definition serving {T} (g : Startup.globals) (c : es_cluster) (t : T) (now : Z)
    (st : Startup.state) : world T :=
  World (Startup.es_client g) c (Startup.CACHE_INDEX g) t now (Startup.out st).

(** [GET /]. *)
Definition root {T} : M T exn value := λ w,
  (inr (VDict [("message", VStr "Weather Cache Backend");
               ("service", VStr "weather-cache-backend")]), w).

(** [GET /health]. *)
Definition health {T} : M T exn value := λ w,
  (inr (VDict [("status", VStr "healthy");
               ("cache_enabled",
                VBool (match es_client w with Some _ => true | None => false end))]), w).

(** The character of the id for a character of the city. *)
Definition id_char (ch : ascii) : ascii :=
  if Ascii.eqb (Str.lower_char ch) " " then "-"%char else Str.lower_char ch.

(** ** Relations the handlers keep *)

(** [m] takes every world to one related to it by [R]. *)
Definition keeps {T E A} (R : world T → world T → Prop) (m : M T E A) : Prop :=
  ∀ w, R w (m w).2.

(** The stored documents are the same. *)
Definition same_docs {T} (w w' : world T) : Prop :=
  es_docs (cluster w') = es_docs (cluster w).


(** The store has received, since, only requests satisfying [P]. *)
Definition only_requests {T} (P : es_request → Prop) (w w' : world T) : Prop :=
  ∃ l, es_log (cluster w') = (es_log (cluster w) ++ l)%list ∧ Forall P l.

(** The output has only grown. *)
Definition output_grows {T} (w w' : world T) : Prop :=
  ∃ l, stdout w' = (stdout w ++ l)%list.

(** A deployment to start up. *)
Module Launch.

Definition environ : gmap string string :=
  {[ "ELASTICSEARCH_ENDPOINT" := "https://es.example/:443/";
     "ELASTICSEARCH_API" := "secret" ]}.

(** No endpoint that survives the stripping. *)
Definition slashes : gmap string string :=
  {[ "ELASTICSEARCH_ENDPOINT" := "///"; "ELASTICSEARCH_API" := "secret" ]}.

(** A cluster without indices that answers every request. *)
Definition fresh : Startup.state := Startup.State (EsAdmin ∅ (λ _, None) []) [].

(** A cluster that refuses every connection. *)
Definition down : Startup.state :=
  Startup.State
    (EsAdmin ∅ (λ _, Some (Exn "ConnectionError" "Connection refused")) []) [].

(** A tracer whose [set_attribute] raises on [cache.write.success]. *)
Definition flaky : Tracer unit := {|
  start_as_current_span _ _ := inr ();
  set_attribute k _ _ :=
    if String.eqb k "cache.write.success"
    then inl (Exn "RuntimeError" "exporter down") else inr ();
  end_span _ _ := inr ()
|}.

End Launch.

(** Symbolic execution of a handler under a tracer that never raises. *)
Ltac run_tracer Hstart Hset Hend :=
  match goal with
  | |- context [set_attribute ?tr ?k ?v ?t] =>
      let t' := fresh "t" in destruct (Hset k v t) as [t' ->]
  | |- context [start_as_current_span ?tr ?n ?t] =>
      let t' := fresh "t" in destruct (Hstart n t) as [t' ->]
  | |- context [end_span ?tr ?b ?t] =>
      let t' := fresh "t" in destruct (Hend b t) as [t' ->]
  end.

Ltac run_cbn :=
  cbn beta iota zeta delta
    [tracer_state set_tracer_state set_cluster set_stdout cluster es_client
     CACHE_INDEX clock stdout fst snd].

Ltac run_unfold :=
  unfold with_span, mbind, M_bind, mret, M_ret, span_set_attribute,
    try_except, es_get, es_index, py, print, now_utc, raise, throw_exn,
    throws_exn, throws_raised;
  run_cbn.

Ltac run Hstart Hset Hend :=
  run_unfold; repeat (run_tracer Hstart Hset Hend; run_cbn).

Ltac run_done := by eexists _, _.

(** Symbolic execution under the recording tracer. *)
Ltac run_recorder :=
  run_unfold;
  repeat progress
    cbn beta iota zeta delta
      [start_as_current_span set_attribute end_span Tracers.recorder
       span_ended span_name span_attrs
       tracer_state set_tracer_state set_cluster set_stdout cluster es_client
       CACHE_INDEX clock stdout fst snd].

(** Lookups in a chain of inserts with literal keys. *)
Ltac attrs_lookup :=
  repeat first
    [ rewrite lookup_insert_eq
    | rewrite lookup_insert_ne by done
    | rewrite lookup_empty ].

(** Closes a case of the span contract: the span is the one built, and
    each clause either reads its attributes or has a premise about a
    response other than the one returned. *)
Ltac span_done :=
  eexists; split; [reflexivity|]; attrs_lookup;
  split_and!;
  first [ done | by intros ? ? [=] | by intros ? [=] | by intros [=]
        | by eexists
        | by intros ? ? [= <- <-]; attrs_lookup
        | by intros ? [= <-]; attrs_lookup
        | by intros _; attrs_lookup; eauto ].

(** ** Running the handlers *)

Lemma never_raises_noop : never_raises Tracers.noop.
Proof. repeat split; intros; by eexists. Qed.

Lemma never_raises_recorder : never_raises Tracers.recorder.
Proof.
  repeat split; intros; simpl.
  - by eexists.
  - destruct t as [|s t]; [by eexists|]. destruct (span_ended s); by eexists.
  - destruct t as [|s t]; by eexists.
Qed.

Section Runs.
Context {T : Type} (tr : Tracer T) {iso : IsoCodec}.
Hypothesis Htr : never_raises tr.

(** With the store configured, [check_cache] returns the looked-up
    response, or the error response when the lookup raised; the store
    has received the one read, and nothing else of the world moved but
    the tracer and the output. *)
Lemma check_cache_run city w :
  is_Some (es_client w) →
  ∃ t' out,
    check_cache tr city w
    = (inr (match check_outcome w city with inl _ => error_response | inr r => r end),
       World (es_client w)
         (ES.received (EsGet (CACHE_INDEX w) (doc_id_of city)) (cluster w))
         (CACHE_INDEX w) t' (clock w) out).
Proof.
  intros [c Hc].
  destruct Htr as (Hstart & Hset & Hend).
  destruct w as [oc cl idx ts0 now out0]; simpl in Hc; subst oc.
  unfold check_cache, check_outcome, get_fault, stored, age_of.
  run Hstart Hset Hend.
  unfold ES.get.
  destruct (es_fault cl _) as [e|].
  { run Hstart Hset Hend. run_done. }
  destruct (es_docs cl !! _) as [src|].
  2: { run Hstart Hset Hend. cbn. run Hstart Hset Hend. run_done. }
  run_cbn. cbn [Py.truthy Py.get Py.lookup Py.getitem String.eqb Ascii.eqb Bool.eqb negb].
  destruct (Py.getitem src "timestamp") as [e|ts];
    [run Hstart Hset Hend; run_done|].
  destruct (Py.replace ts "Z" "+00:00") as [e|isostr];
    [run Hstart Hset Hend; run_done|].
  destruct (fromisoformat isostr) as [e|cache_time];
    [run Hstart Hset Hend; run_done|].
  run_cbn.
  destruct (DT.sub _ cache_time) as [e|delta];
    [run Hstart Hset Hend; run_done|].
  run Hstart Hset Hend.
  destruct (DT.ltb _ 3600).
  - destruct (Py.getitem src "weather") as [e|weather];
      run Hstart Hset Hend; run_done.
  - run Hstart Hset Hend. run_done.
Qed.

Lemma check_cache_result city w :
  is_Some (es_client w) →
  (check_cache tr city w).1
  = inr (match check_outcome w city with inl _ => error_response | inr r => r end).
Proof. intros Hc. by destruct (check_cache_run city w Hc) as (t' & out & ->). Qed.

Lemma check_cache_cluster city w :
  is_Some (es_client w) →
  cluster (check_cache tr city w).2
  = ES.received (EsGet (CACHE_INDEX w) (doc_id_of city)) (cluster w).
Proof. intros Hc. by destruct (check_cache_run city w Hc) as (t' & out & ->). Qed.

(** With the store configured, [write_cache] succeeds unless the store
    faults the request, and the store has received the one request. *)
Lemma write_cache_run request w :
  is_Some (es_client w) →
  ∃ t' out,
    write_cache tr request w
    = (match index_fault w request with
       | Some e => inl (HTTPException 500 ("Cache write failed: " +:+ exn_str e))
       | None => inr (success_response (city request))
       end,
       World (es_client w)
         (ES.index (CACHE_INDEX w) (doc_id_of (city request))
            (cache_doc request (clock w)) (cluster w)).2
         (CACHE_INDEX w) t' (clock w) out).
Proof.
  intros [c Hc].
  destruct Htr as (Hstart & Hset & Hend).
  destruct w as [oc cl idx ts0 now out0]; simpl in Hc; subst oc.
  unfold write_cache, index_fault, cache_doc.
  run Hstart Hset Hend.
  unfold ES.index.
  destruct (es_fault cl _) as [e|].
  - run Hstart Hset Hend. run_done.
  - run Hstart Hset Hend. run_done.
Qed.

Lemma write_cache_result request w :
  is_Some (es_client w) →
  (write_cache tr request w).1
  = match index_fault w request with
    | Some e => inl (HTTPException 500 ("Cache write failed: " +:+ exn_str e))
    | None => inr (success_response (city request))
    end.
Proof. intros Hc. by destruct (write_cache_run request w Hc) as (t' & out & ->). Qed.

Lemma write_cache_world request w :
  is_Some (es_client w) →
  let w' := (write_cache tr request w).2 in
  es_client w' = es_client w ∧ CACHE_INDEX w' = CACHE_INDEX w
  ∧ clock w' = clock w
  ∧ cluster w'
    = (ES.index (CACHE_INDEX w) (doc_id_of (city request))
         (cache_doc request (clock w)) (cluster w)).2.
Proof. intros Hc. by destruct (write_cache_run request w Hc) as (t' & out & ->). Qed.

End Runs.

(** ** Ages: comparison with the TTL, truncation and floor *)

Section Ages.
Implicit Types delta : timedelta.

Lemma ltb_total_seconds delta :
  DT.ltb (DT.total_seconds delta) 3600 = (delta <? TTL_us).
Proof.
  unfold DT.ltb, DT.total_seconds, Qle_bool, TTL_us. simpl.
  destruct (Z.leb_spec 3600000000 (delta * 1)), (Z.ltb_spec delta (3600 * 1000000));
    simpl; lia.
Qed.




Lemma int_total_seconds delta :
  DT.int (DT.total_seconds delta) = Z.quot delta 1000000.
Proof. reflexivity. Qed.




Lemma int_nonpos delta :
  delta < 0 → DT.int (DT.total_seconds delta) <= 0.
Proof.
  intros Hd. rewrite int_total_seconds.
  apply Z.quot_le_upper_bound; lia.
Qed.


End Ages.

(** ** Reading back what was written *)

Section ReadBack.
Context {T : Type} (tr : Tracer T) {iso : IsoCodec}.
Hypothesis Htr : never_raises tr.



End ReadBack.

(** ** Blank city names *)



(** ** The cache protocol *)

Section Protocol.
Context {T : Type} (tr : Tracer T) {iso : IsoCodec}.
Hypothesis Htr : never_raises tr.




(** C3. With the store configured, [check_cache] never raises; and
    whenever the read path faults (the store raises on the read, or the
    stored timestamp is missing, not a string, malformed or naive, or a
    fresh document lacks its weather), the response is
    [{cached: false, data: null, reason: "error"}], which is returned
    in no other case. *)
Theorem check_cache_absorbs_read_faults (c : string) (w : world T) :
  is_Some (es_client w) →
  (∃ response, (check_cache tr c w).1 = inr response)
  ∧ (read_fault w c → (check_cache tr c w).1 = inr error_response)
  ∧ ((check_cache tr c w).1 = inr error_response → read_fault w c).
Proof.
  intros Hc. rewrite check_cache_result by done.
  split; [by eexists|]. unfold check_outcome. split.
  - intros [e Hf|src e Hf Hs Ha|src delta e Hf Hs Ha Hlt Hw].
    + by rewrite Hf.
    + by rewrite Hf, Hs, Ha.
    + rewrite Hf, Hs, Ha, ltb_total_seconds.
      destruct (Z.ltb_spec delta TTL_us); [|lia]. by rewrite Hw.
  - destruct (get_fault w c) as [e|] eqn:Hf; [intros _; by eapply store_raises|].
    destruct (stored w c) as [src|] eqn:Hs; [|by intros [=]].
    destruct (age_of w src) as [e|delta] eqn:Ha;
      [intros _; by eapply timestamp_unusable|].
    rewrite ltb_total_seconds.
    destruct (Z.ltb_spec delta TTL_us) as [Hlt|Hge]; [|by intros [=]].
    destruct (Py.getitem src "weather") as [e|weather] eqn:Hw; [|by intros [=]].
    intros _. by eapply weather_missing.
Qed.

(** C4. [write_cache] raises [HTTPException(503, "Cache not
    configured")] exactly when there is no client; with a client, a
    fault [e] of the store on the write raises [HTTPException(500,
    "Cache write failed: " + str(e))]; and it raises nothing else. *)
Theorem write_cache_failure_modes (request : CacheWriteRequest) (w : world T) :
  let unavailable := HTTPException 503 "Cache not configured" in
  let failed e := HTTPException 500 ("Cache write failed: " +:+ exn_str e) in
  (es_client w = None ↔ (write_cache tr request w).1 = inl unavailable)
  ∧ (∀ e, is_Some (es_client w) → index_fault w request = Some e →
       (write_cache tr request w).1 = inl (failed e))
  ∧ (∀ x, (write_cache tr request w).1 = inl x →
       (x = unavailable ∧ es_client w = None)
       ∨ (∃ e, is_Some (es_client w) ∧ index_fault w request = Some e
               ∧ x = failed e)).
Proof.
  intros unavailable failed.
  destruct (es_client w) as [cl|] eqn:Hc.
  - assert (Hs : is_Some (es_client w)) by (by rewrite Hc).
    rewrite (write_cache_result tr Htr request w Hs).
    destruct (index_fault w request) as [e|].
    + split; [split; [done|by intros [=]]|]. split.
      * by intros e' _ [= <-].
      * intros x [= <-]. right. by exists e.
    + split; [split; [done|by intros [=]]|]. split.
      * by intros e' _ [=].
      * by intros x [=].
  - assert (Hrun : (write_cache tr request w).1 = inl unavailable).
    { unfold write_cache. by rewrite Hc. }
    rewrite Hrun. split; [done|]. split.
    + by intros e [? [=]].
    + intros x [= <-]. by left.
Qed.



End Protocol.

(** ** The disabled store *)

Lemma no_client_run {T} (tr : Tracer T) {iso : IsoCodec} (w : world T)
    (c : string) (request : CacheWriteRequest) :
  es_client w = None →
  check_cache tr c w = (inr disabled_response, w)
  ∧ write_cache tr request w = (inl (HTTPException 503 "Cache not configured"), w).
Proof.
  intros Hc. unfold check_cache, write_cache. by rewrite Hc.
Qed.

(** C6. Without a client, whatever the tracer, [check_cache] answers
    [{cached: false, data: null, reason: "cache_disabled"}] and
    [write_cache] raises [HTTPException(503, "Cache not configured")];
    neither touches the world: no request reaches the store and no span
    is started. *)
Theorem disabled_store {T} (tr : Tracer T) {iso : IsoCodec} (w : world T)
    (c : string) (request : CacheWriteRequest) :
  es_client w = None →
  check_cache tr c w = (inr disabled_response, w)
  ∧ write_cache tr request w = (inl (HTTPException 503 "Cache not configured"), w)
  ∧ es_log (cluster (check_cache tr c w).2) = es_log (cluster w)
  ∧ es_log (cluster (write_cache tr request w).2) = es_log (cluster w).
Proof.
  intros Hc. unfold check_cache, write_cache. by rewrite Hc.
Qed.

(** ** Tracing *)

(** C8 (amended). For every tracer whose span start, attribute setting
    and span end return normally, whatever it records, [check_cache]
    and [write_cache] give the result, and leave the store in the
    state, that they do with the no-op tracer. *)
Theorem tracer_noninterference {T} (tr : Tracer T) {iso : IsoCodec} (w : world T)
    (c : string) (request : CacheWriteRequest) :
  never_raises tr →
  let w0 := set_tracer_state () w in
  (check_cache tr c w).1 = (check_cache Tracers.noop c w0).1
  ∧ cluster (check_cache tr c w).2 = cluster (check_cache Tracers.noop c w0).2
  ∧ (write_cache tr request w).1 = (write_cache Tracers.noop request w0).1
  ∧ cluster (write_cache tr request w).2
    = cluster (write_cache Tracers.noop request w0).2.
Proof.
  intros Htr w0.
  destruct (es_client w) as [cl|] eqn:Hc.
  - assert (Hs : is_Some (es_client w)) by (by rewrite Hc).
    assert (Hs0 : is_Some (es_client w0)) by done.
    rewrite (check_cache_result tr Htr c w Hs),
      (check_cache_result _ never_raises_noop c w0 Hs0),
      (check_cache_cluster tr Htr c w Hs),
      (check_cache_cluster _ never_raises_noop c w0 Hs0),
      (write_cache_result tr Htr request w Hs),
      (write_cache_result _ never_raises_noop request w0 Hs0).
    destruct (write_cache_world tr Htr request w Hs) as (_ & _ & _ & ->).
    by destruct (write_cache_world _ never_raises_noop request w0 Hs0) as (_ & _ & _ & ->).
  - destruct (no_client_run tr w c request Hc) as (-> & ->).
    by destruct (no_client_run Tracers.noop w0 c request Hc) as (-> & ->).
Qed.

(** C9 (amended). With the store configured, every check leaves one
    ended span [cache.check] that carries the backend identifier, the
    city as key, and the boolean [cache.hit]. When a document was found
    and dated, fresh or expired, [cache.hit] is true and the span
    carries the age and the boolean [cache.fresh], true for a hit and
    false for an expired record, which gets no miss reason. For
    [not_found], [cache.hit] is false and the miss reason is
    ["not_found"]; for [error], [cache.hit] is false and [cache.error]
    names the exception class. *)
Theorem check_cache_span {iso : IsoCodec} (c : string) (w : world (list span)) :
  is_Some (es_client w) →
  let r := (check_cache Tracers.recorder c w).1 in
  ∃ attrs : gmap string attr,
    tracer_state (check_cache Tracers.recorder c w).2
    = Span "cache.check" attrs true false :: tracer_state w
    ∧ attrs !! "cache.backend" = Some (AStr "elasticsearch")
    ∧ attrs !! "cache.key" = Some (AStr c)
    ∧ (∃ hit, attrs !! "cache.hit" = Some (ABool hit))
    ∧ (∀ data age, r = inr (hit_response data age) →
         attrs !! "cache.hit" = Some (ABool true)
         ∧ attrs !! "cache.age_seconds" = Some (AInt age)
         ∧ attrs !! "cache.fresh" = Some (ABool true))
    ∧ (∀ age, r = inr (expired_response age) →
         attrs !! "cache.hit" = Some (ABool true)
         ∧ attrs !! "cache.age_seconds" = Some (AInt age)
         ∧ attrs !! "cache.fresh" = Some (ABool false)
         ∧ attrs !! "cache.miss_reason" = None)
    ∧ (r = inr not_found_response →
         attrs !! "cache.hit" = Some (ABool false)
         ∧ attrs !! "cache.miss_reason" = Some (AStr "not_found"))
    ∧ (r = inr error_response →
         attrs !! "cache.hit" = Some (ABool false)
         ∧ ∃ name, attrs !! "cache.error" = Some (AStr name)).
Proof.
  intros [cl Hc].
  destruct w as [oc cl0 idx ts0 now out0]; simpl in Hc; subst oc.
  unfold check_cache. run_recorder. unfold ES.get.
  destruct (es_fault cl0 _) as [e|]; [run_recorder; span_done|].
  destruct (es_docs cl0 !! _) as [src|].
  2: { run_recorder. cbn. run_recorder. span_done. }
  run_cbn. cbn [Py.truthy Py.get Py.lookup Py.getitem String.eqb Ascii.eqb Bool.eqb negb].
  destruct (Py.getitem src "timestamp") as [e|ts]; [run_recorder; span_done|].
  destruct (Py.replace ts "Z" "+00:00") as [e|isostr]; [run_recorder; span_done|].
  destruct (fromisoformat isostr) as [e|cache_time]; [run_recorder; span_done|].
  run_cbn.
  destruct (DT.sub _ cache_time) as [e|delta]; [run_recorder; span_done|].
  run_recorder.
  destruct (DT.ltb _ 3600).
  - destruct (Py.getitem src "weather") as [e|weather]; run_recorder.
    + span_done.
    + span_done.
  - run_recorder. span_done.
Qed.

(** ** The scenario, run *)

Section ScenarioRuns.
Import Scenario.
#[local] Existing Instance Scenario.codec.

(** The scenario of the specification: write New York, check new york. *)
Example write_new_york :
  (write_cache Tracers.recorder new_york (boot healthy)).1
  = inr (success_response "New York").
Proof. vm_compute. reflexivity. Qed.

Example check_new_york_at_once :
  (check_cache Tracers.recorder "new york" written).1 = inr (hit_response temp72 0).
Proof. vm_compute. reflexivity. Qed.

Example check_atlantis :
  (check_cache Tracers.recorder "Atlantis" (boot healthy)).1 = inr not_found_response.
Proof. vm_compute. reflexivity. Qed.

Example check_zulu_timestamp :
  (check_cache Tracers.recorder "Oslo" (boot (foreign zulu_timestamp))).1
  = inr (hit_response (VDict [("temp", VInt 3)]) 0).
Proof. vm_compute. reflexivity. Qed.

Example check_expired :
  (check_cache Tracers.recorder "NEW YORK" (at_time (t0 + seconds 3601) written)).1
  = inr (expired_response 3601).
Proof. vm_compute. reflexivity. Qed.

Example check_at_ttl :
  (check_cache Tracers.recorder "New York" (at_time (t0 + seconds 3600) written)).1
  = inr (expired_response 3600).
Proof. vm_compute. reflexivity. Qed.

Example check_no_timestamp :
  (check_cache Tracers.recorder "Oslo" (boot (foreign no_timestamp))).1
  = inr error_response.
Proof. vm_compute. reflexivity. Qed.

Example check_naive_timestamp :
  (check_cache Tracers.recorder "Oslo" (boot (foreign naive_timestamp))).1
  = inr error_response.
Proof. vm_compute. reflexivity. Qed.

Example check_no_weather :
  (check_cache Tracers.recorder "Oslo" (boot (foreign no_weather))).1
  = inr error_response.
Proof. vm_compute. reflexivity. Qed.

Example write_unreachable_stdout :
  stdout (write_cache Tracers.recorder new_york (boot unreachable)).2
  = ["Cache write error for New York: Connection refused"].
Proof. vm_compute. reflexivity. Qed.

Example check_unreachable :
  (check_cache Tracers.recorder "Oslo" (boot unreachable)).1 = inr error_response.
Proof. vm_compute. reflexivity. Qed.




Lemma check_cache_absorbs_read_faults_witness :
  (check_cache Tracers.recorder "Oslo" (boot (foreign malformed_timestamp))).1
  = inr error_response.
Proof.
  destruct (check_cache_absorbs_read_faults Tracers.recorder never_raises_recorder
              "Oslo" (boot (foreign malformed_timestamp)))
    as (_ & Herr & _).
  - vm_compute. by eexists.
  - apply Herr.
    apply (timestamp_unusable _ _ malformed_timestamp
             (Exn "ValueError" "Invalid isoformat string: 'yesterday'"));
      vm_compute; reflexivity.
Defined.

Lemma write_cache_failure_modes_witness :
  (write_cache Tracers.recorder new_york (boot unreachable)).1
  = inl (HTTPException 500 "Cache write failed: Connection refused").
Proof.
  destruct (write_cache_failure_modes Tracers.recorder never_raises_recorder
              new_york (boot unreachable))
    as (_ & Hfail & _).
  apply (Hfail (Exn "ConnectionError" "Connection refused")).
  - vm_compute. by eexists.
  - vm_compute. reflexivity.
Defined.


Lemma disabled_store_witness :
  check_cache Tracers.recorder "Oslo" disabled = (inr disabled_response, disabled)
  ∧ write_cache Tracers.recorder new_york disabled
    = (inl (HTTPException 503 "Cache not configured"), disabled).
Proof.
  destruct (disabled_store Tracers.recorder disabled "Oslo" new_york)
    as (Hcheck & Hwrite & _).
  - reflexivity.
  - by split.
Defined.




Lemma tracer_noninterference_witness :
  (check_cache Tracers.recorder "Oslo" (boot healthy)).1
  = (check_cache Tracers.noop "Oslo" (boot_unit healthy)).1
  ∧ (write_cache Tracers.recorder new_york (boot healthy)).1
    = (write_cache Tracers.noop new_york (boot_unit healthy)).1.
Proof.
  destruct (tracer_noninterference Tracers.recorder (boot healthy) "Oslo" new_york
              never_raises_recorder)
    as (Hcheck & _ & Hwrite & _).
  split; [exact Hcheck|exact Hwrite].
Defined.

(** C8, as stated, fails for a tracer whose [set_attribute] raises: the
    check and the write raise where the no-op tracer lets them answer;
    and likewise for a tracer that cannot start a span. *)
Lemma tracer_failure_changes_result :
  (check_cache Tracers.broken "Oslo" (boot_unit healthy)).1
  = inl (Exn "RuntimeError" "exporter down")
  ∧ (check_cache Tracers.unstartable "Oslo" (boot_unit healthy)).1
    = inl (Exn "RuntimeError" "no provider")
  ∧ (check_cache Tracers.noop "Oslo" (boot_unit healthy)).1 = inr not_found_response
  ∧ (check_cache Tracers.broken "Oslo" (boot_unit healthy)).1
    ≠ (check_cache Tracers.noop "Oslo" (boot_unit healthy)).1
  ∧ (write_cache Tracers.broken new_york (boot_unit healthy)).1
    ≠ (write_cache Tracers.noop new_york (boot_unit healthy)).1.
Proof.
  vm_compute. split_and!; try reflexivity; intros [=].
Qed.

Lemma check_cache_span_witness :
  ∃ attrs : gmap string attr,
    tracer_state (check_cache Tracers.recorder "Oslo" (boot healthy)).2
    = [Span "cache.check" attrs true false]
    ∧ attrs !! "cache.hit" = Some (ABool false)
    ∧ attrs !! "cache.miss_reason" = Some (AStr "not_found").
Proof.
  destruct (check_cache_span "Oslo" (boot healthy)) as (attrs & Hsp & _ & _ & _ & _ & _ & Hmiss & _).
  - vm_compute. by eexists.
  - exists attrs. split; [exact Hsp|]. apply Hmiss. vm_compute. reflexivity.
Defined.

(** C9, as stated, fails for an expired record: the response is a miss
    with reason ["expired"], yet the span has [cache.hit] true and no
    miss reason; and with the store disabled a check leaves no span. *)
Lemma expired_span_hit_without_reason :
  let run := check_cache Tracers.recorder "new york"
               (at_time (t0 + seconds 3601) written) in
  run.1 = inr (expired_response 3601)
  ∧ match tracer_state run.2 with
    | sp :: _ =>
        span_name sp = "cache.check"
        ∧ span_attrs sp !! "cache.hit" = Some (ABool true)
        ∧ span_attrs sp !! "cache.hit" ≠ Some (ABool false)
        ∧ span_attrs sp !! "cache.fresh" = Some (ABool false)
        ∧ span_attrs sp !! "cache.miss_reason" = None
    | [] => False
    end
  ∧ tracer_state (check_cache Tracers.recorder "new york" disabled).2 = [].
Proof.
  vm_compute. split_and!; try reflexivity. intros [=].
Qed.

End ScenarioRuns.

(** ** What the handlers keep, whatever the tracer does *)

Section Frame.
Context {T : Type} (tr : Tracer T) {iso : IsoCodec}.
Variable R : world T → world T → Prop.
Hypothesis R_refl : ∀ w, R w w.
Hypothesis R_trans : ∀ a b c, R a b → R b c → R a c.
Hypothesis R_tracer : ∀ w (t : T), R w (set_tracer_state t w).
Hypothesis R_print : ∀ w line, R w (set_stdout (stdout w ++ [line]) w).

Lemma keeps_ret {E A} (a : A) : keeps R (mret a : M T E A).
Proof. intros w. apply R_refl. Qed.

Lemma keeps_raise {E A} (e : E) : keeps R (raise e : M T E A).
Proof. intros w. apply R_refl. Qed.

Lemma keeps_bind {E A B} (m : M T E A) (f : A → M T E B) :
  keeps R m → (∀ a, keeps R (f a)) → keeps R (m ≫= f).
Proof.
  intros Hm Hf w. unfold mbind, M_bind. specialize (Hm w).
  destruct (m w) as [[e|a] w1]; [exact Hm|].
  eapply R_trans; [exact Hm|apply Hf].
Qed.

Lemma keeps_py {E A} `{!Throws E} (r : exn + A) : keeps R (py r : M T E A).
Proof. intros w. unfold py. destruct r; apply R_refl. Qed.

Lemma keeps_print {E} (line : string) : keeps R (print line : M T E unit).
Proof. intros w. apply R_print. Qed.

Lemma keeps_now {E} : keeps R (now_utc : M T E datetime).
Proof. intros w. apply R_refl. Qed.

Lemma keeps_set_attribute {E} `{!Throws E} (k : string) (v : attr) :
  keeps R (span_set_attribute tr k v : M T E unit).
Proof.
  intros w. unfold span_set_attribute.
  destruct (set_attribute tr k v (tracer_state w)); [apply R_refl|apply R_tracer].
Qed.

Lemma keeps_try_except {E A} (body : M T exn A) (handler : exn → M T E A) :
  keeps R body → (∀ e, keeps R (handler e)) → keeps R (try_except body handler).
Proof.
  intros Hb Hh w. unfold try_except. specialize (Hb w).
  destruct (body w) as [[e|a] w1]; [|exact Hb].
  eapply R_trans; [exact Hb|apply Hh].
Qed.

Lemma keeps_with_span {E A} `{!Throws E} (name : string) (body : M T E A) :
  keeps R body → keeps R (with_span tr name body).
Proof.
  intros Hb w. unfold with_span.
  destruct (start_as_current_span tr name (tracer_state w)) as [e|t];
    [apply R_refl|].
  specialize (Hb (set_tracer_state t w)).
  destruct (body (set_tracer_state t w)) as [r w1]. cbn [snd] in Hb.
  assert (Hw1 : R w w1) by (eapply R_trans; [apply R_tracer|exact Hb]).
  destruct (end_span tr _ (tracer_state w1)); [exact Hw1|].
  eapply R_trans; [exact Hw1|apply R_tracer].
Qed.

(** One step through a handler for a relation it [keeps]: the lemma of
    the combinator at the head, or a case split on a branch. *)
Ltac keeps_step :=
  first
    [ assumption
    | match goal with H : ∀ _, keeps _ _ |- _ => apply H end
    | apply keeps_ret | apply keeps_raise | apply keeps_py | apply keeps_print
    | apply keeps_now | apply keeps_set_attribute
    | apply keeps_bind; [|intros ?]
    | apply keeps_try_except; [|intros ?]
    | match goal with
      | |- keeps _ (if ?b then _ else _) => destruct b
      end ].

Lemma keeps_check_cache (c : string) (w : world T) :
  keeps R (es_get (E := exn) (CACHE_INDEX w) (doc_id_of c)) →
  R w (check_cache tr c w).2.
Proof.
  intros Hget. unfold check_cache.
  destruct (es_client w); [|apply R_refl].
  apply keeps_with_span. cbv zeta.
  repeat keeps_step.
Qed.


End Frame.

(** The four relations are kept by the steps that do not reach the
    store. *)
Lemma same_docs_trans {T} (a b c : world T) :
  same_docs a b → same_docs b c → same_docs a c.
Proof. unfold same_docs. congruence. Qed.


Lemma only_requests_refl {T} (P : es_request → Prop) (w w' : world T) :
  cluster w' = cluster w → only_requests P w w'.
Proof. intros Hc. exists []. by rewrite Hc, app_nil_r. Qed.

Lemma only_requests_trans {T} (P : es_request → Prop) (a b c : world T) :
  only_requests P a b → only_requests P b c → only_requests P a c.
Proof.
  intros (l1 & H1 & HP1) (l2 & H2 & HP2). exists (l1 ++ l2)%list.
  split; [by rewrite H2, H1, app_assoc|by apply Forall_app].
Qed.

Lemma es_get_world {T E} `{!Throws E} (index id : string) (w : world T) :
  (es_get (E := E) index id w).2
  = set_cluster (ES.received (EsGet index id) (cluster w)) w.
Proof.
  unfold es_get, ES.get.
  destruct (es_fault _ _); [done|]. by destruct (_ !! _).
Qed.


(** X1. Whatever the tracer does, also when it raises, a check leaves
    every stored document as it was, and the only requests it sends are
    reads of the document id of its city. *)
Theorem check_cache_read_only {T} (tr : Tracer T) {iso : IsoCodec}
    (c : string) (w : world T) :
  es_docs (cluster (check_cache tr c w).2) = es_docs (cluster w)
  ∧ only_requests (λ r, r = EsGet (CACHE_INDEX w) (doc_id_of c))
      w (check_cache tr c w).2.
Proof.
  split.
  - apply (keeps_check_cache tr same_docs); try done.
    + apply same_docs_trans.
    + intros w0. by rewrite es_get_world.
  - apply (keeps_check_cache tr (only_requests _)).
    + intros w0. by apply only_requests_refl.
    + apply only_requests_trans.
    + intros w0 t. by apply only_requests_refl.
    + intros w0 line. by apply only_requests_refl.
    + intros w0. exists [EsGet (CACHE_INDEX w) (doc_id_of c)].
      split; [|by apply Forall_singleton]. by rewrite es_get_world.
Qed.


(** ** How calls compose *)

(** The lookup depends on the world through the index name, the clock,
    the fault of the read and the document under the id only. *)
Lemma check_outcome_ext {T U} {iso : IsoCodec} (w : world T) (w' : world U)
    (c : string) :
  CACHE_INDEX w' = CACHE_INDEX w →
  clock w' = clock w →
  get_fault w' c = get_fault w c →
  stored w' c = stored w c →
  check_outcome w' c = check_outcome w c.
Proof.
  intros Hi Hk Hf Hs. unfold check_outcome, age_of. by rewrite Hf, Hs, Hk.
Qed.

(** The age of a document moves with the clock. *)
Lemma age_of_at_time {T} {iso : IsoCodec} (w : world T) (src : value) (t : Z) :
  age_of (at_time t w) src
  = match age_of w src with
    | inl e => inl e
    | inr delta => inr (delta + (t - clock w))
    end.
Proof.
  unfold age_of, at_time. cbn [clock].
  destruct (Py.getitem src "timestamp") as [e|ts]; [done|].
  destruct (Py.replace ts "Z" "+00:00") as [e|text]; [done|].
  destruct (fromisoformat text) as [e|[wall [off|]]]; [done| |done].
  unfold DT.sub, DT.utc. cbn [dt_utcoffset dt_wall]. f_equal. lia.
Qed.

Section Behaviour.
Context {T : Type} (tr : Tracer T) {iso : IsoCodec}.
Hypothesis Htr : never_raises tr.

Lemma check_cache_world (c : string) (w : world T) :
  let w' := (check_cache tr c w).2 in
  es_client w' = es_client w ∧ CACHE_INDEX w' = CACHE_INDEX w
  ∧ clock w' = clock w
  ∧ es_docs (cluster w') = es_docs (cluster w)
  ∧ es_fault (cluster w') = es_fault (cluster w).
Proof.
  destruct (es_client w) as [cl|] eqn:Hc.
  - assert (Hs : is_Some (es_client w)) by (by rewrite Hc).
    destruct (check_cache_run tr Htr c w Hs) as (t' & out & ->).
    by rewrite Hc.
  - unfold check_cache. by rewrite Hc.
Qed.

Lemma write_cache_fault_kept (request : CacheWriteRequest) (w : world T) :
  is_Some (es_client w) →
  es_fault (cluster (write_cache tr request w).2) = es_fault (cluster w).
Proof.
  intros Hc.
  destruct (write_cache_world tr Htr request w Hc) as (_ & _ & _ & ->).
  unfold ES.index. by destruct (es_fault _ _).
Qed.


(** X4. A write that the store faults stores nothing: every document
    is as before, and every later check answers as it would have
    without the write. *)
Theorem failed_write_stores_nothing (request : CacheWriteRequest) (c : string)
    (w : world T) (e : exn) :
  is_Some (es_client w) →
  index_fault w request = Some e →
  let w' := (write_cache tr request w).2 in
  es_docs (cluster w') = es_docs (cluster w)
  ∧ (check_cache tr c w').1 = (check_cache tr c w).1.
Proof.
  intros Hc Hf w'. subst w'.
  destruct (write_cache_world tr Htr request w Hc) as (Hc' & Hi & Hk & Hcl).
  assert (Hdocs : es_docs (cluster (write_cache tr request w).2) = es_docs (cluster w)).
  { rewrite Hcl. unfold ES.index. unfold index_fault in Hf. by rewrite Hf. }
  split; [done|].
  assert (Hcw' : is_Some (es_client (write_cache tr request w).2)) by (by rewrite Hc').
  rewrite (check_cache_result tr Htr c _ Hcw'), (check_cache_result tr Htr c w Hc).
  f_equal. rewrite (check_outcome_ext w (write_cache tr request w).2 c); try done.
  - unfold get_fault. by rewrite write_cache_fault_kept, Hi.
  - unfold stored. by rewrite Hdocs, Hi.
Qed.


(** X6. A check does not disturb the next one: after a check of any
    city, a check at the same instant answers what it would have
    answered before. *)
Theorem check_is_repeatable (c c' : string) (w : world T) :
  (check_cache tr c' (check_cache tr c w).2).1 = (check_cache tr c' w).1.
Proof.
  destruct (check_cache_world c w) as (Hc & Hi & Hk & Hd & Hf).
  destruct (es_client w) as [cl|] eqn:Hcl.
  - assert (Hs : is_Some (es_client w)) by (by rewrite Hcl).
    assert (Hs' : is_Some (es_client (check_cache tr c w).2)) by (by rewrite Hc).
    rewrite (check_cache_result tr Htr c' _ Hs'), (check_cache_result tr Htr c' w Hs).
    f_equal. rewrite (check_outcome_ext w (check_cache tr c w).2 c'); try done.
    + unfold get_fault. by rewrite Hf, Hi.
    + unfold stored. by rewrite Hd, Hi.
  - unfold check_cache at 1 3. by rewrite Hc, Hcl.
Qed.

End Behaviour.

(** ** The shape of the answers *)

(** The cases of the lookup. *)
Lemma check_outcome_cases {T} {iso : IsoCodec} (w : world T) (c : string) :
  (∃ e, check_outcome w c = inl e)
  ∨ (get_fault w c = None ∧ stored w c = None
     ∧ check_outcome w c = inr not_found_response)
  ∨ (∃ src delta data,
       get_fault w c = None ∧ stored w c = Some src ∧ age_of w src = inr delta
       ∧ delta < TTL_us ∧ Py.getitem src "weather" = inr data
       ∧ check_outcome w c = inr (hit_response data (Z.quot delta 1000000)))
  ∨ (∃ src delta,
       get_fault w c = None ∧ stored w c = Some src ∧ age_of w src = inr delta
       ∧ TTL_us <= delta
       ∧ check_outcome w c = inr (expired_response (Z.quot delta 1000000))).
Proof.
  unfold check_outcome.
  destruct (get_fault w c) as [e|] eqn:Hf; [left; by eexists|].
  destruct (stored w c) as [src|] eqn:Hs; [|right; left; done].
  destruct (age_of w src) as [e|delta] eqn:Ha; [left; by eexists|].
  rewrite ltb_total_seconds, int_total_seconds.
  destruct (Z.ltb_spec delta TTL_us) as [Hlt|Hge].
  - destruct (Py.getitem src "weather") as [e|data] eqn:Hw; [left; by eexists|].
    right; right; left. by exists src, delta, data.
  - right; right; right. by exists src, delta.
Qed.

Section Answers.
Context {T : Type} (tr : Tracer T) {iso : IsoCodec}.
Hypothesis Htr : never_raises tr.

(** X7. Freshness only decays with time: a record that a check finds
    expired is found expired, with an age no smaller, at every later
    instant; and a record that a check finds fresh is found fresh, with
    the same data and an age no greater, at every earlier instant. *)
Theorem freshness_decays (c : string) (w : world T) (t : Z) :
  is_Some (es_client w) →
  (∀ a, (check_cache tr c w).1 = inr (expired_response a) → clock w <= t →
     ∃ a', a <= a'
       ∧ (check_cache tr c (at_time t w)).1 = inr (expired_response a'))
  ∧ (∀ data a, (check_cache tr c w).1 = inr (hit_response data a) → t <= clock w →
       ∃ a', a' <= a
         ∧ (check_cache tr c (at_time t w)).1 = inr (hit_response data a')).
Proof.
  intros Hc.
  assert (Hct : is_Some (es_client (at_time t w))) by done.
  rewrite (check_cache_result tr Htr c w Hc),
    (check_cache_result tr Htr c _ Hct).
  assert (Hat : ∀ src delta,
    get_fault w c = None → stored w c = Some src → age_of w src = inr delta →
    check_outcome (at_time t w) c
    = if delta + (t - clock w) <? TTL_us
      then match Py.getitem src "weather" with
           | inl e => inl e
           | inr data =>
               inr (hit_response data (Z.quot (delta + (t - clock w)) 1000000))
           end
      else inr (expired_response (Z.quot (delta + (t - clock w)) 1000000))).
  { intros src delta Hf Hs Ha. unfold check_outcome.
    change (get_fault (at_time t w) c) with (get_fault w c).
    change (stored (at_time t w) c) with (stored w c).
    by rewrite Hf, Hs, age_of_at_time, Ha, ltb_total_seconds, int_total_seconds. }
  destruct (check_outcome_cases w c)
    as [[e Ho]|[(Hf & Hs & Ho)|[(src & d & data & Hf & Hs & Ha & Hd & Hw & Ho)
                               |(src & d & Hf & Hs & Ha & Hd & Ho)]]];
    rewrite Ho; (split; [intros a [=]|intros data' a [=]]); subst; intros Ht.
  - exists (Z.quot (d + (t - clock w)) 1000000). split.
    + apply Z.quot_le_mono; lia.
    + rewrite (Hat src d Hf Hs Ha), Hw.
      by destruct (Z.ltb_spec (d + (t - clock w)) TTL_us); [|lia].
  - exists (Z.quot (d + (t - clock w)) 1000000). split.
    + apply Z.quot_le_mono; lia.
    + rewrite (Hat src d Hf Hs Ha).
      by destruct (Z.ltb_spec (d + (t - clock w)) TTL_us); [lia|].
Qed.

(** X8. Every check answers, and with one of five bodies: the disabled
    one, exactly when there is no client; [not_found]; [error]; a hit,
    whose [age_seconds] is at most 3599; or [expired], whose
    [age_seconds] is at least 3600. *)
Theorem check_cache_answers (c : string) (w : world T) :
  ∃ r, (check_cache tr c w).1 = inr r
    ∧ ((r = disabled_response ∧ es_client w = None)
       ∨ (is_Some (es_client w)
          ∧ (r = not_found_response ∨ r = error_response
             ∨ (∃ data a, r = hit_response data a ∧ a <= 3599)
             ∨ (∃ a, r = expired_response a ∧ 3600 <= a)))).
Proof.
  destruct (es_client w) as [cl|] eqn:Hcl.
  - assert (Hc : is_Some (es_client w)) by (by rewrite Hcl).
    rewrite (check_cache_result tr Htr c w Hc). eexists. split; [done|].
    right. split; [done|].
    destruct (check_outcome_cases w c)
      as [[e Ho]|[(Hf & Hs & Ho)|[(src & d & data & Hf & Hs & Ha & Hd & Hw & Ho)
                                 |(src & d & Hf & Hs & Ha & Hd & Ho)]]];
      rewrite Ho; [by right; left|by left| |].
    + right; right; left. exists data, (Z.quot d 1000000). split; [done|].
      unfold TTL_us in Hd. destruct (Z.lt_ge_cases d 0) as [Hneg|Hpos].
      * pose proof (int_nonpos d Hneg) as Hle. rewrite int_total_seconds in Hle. lia.
      * apply Z.lt_succ_r. apply Z.quot_lt_upper_bound; lia.
    + right; right; right. exists (Z.quot d 1000000). split; [done|].
      unfold TTL_us in Hd. apply Z.quot_le_lower_bound; lia.
  - exists disabled_response. unfold check_cache. rewrite Hcl. split; [done|by left].
Qed.

(** X9. [GET /health] changes nothing and reports [cache_enabled] false
    exactly when a check answers [cache_disabled], and exactly when a
    write raises the 503 error. *)
Theorem health_reports_the_gate (c : string) (request : CacheWriteRequest)
    (w : world T) :
  ∃ enabled : bool,
    health w = (inr (VDict [("status", VStr "healthy");
                            ("cache_enabled", VBool enabled)]), w)
    ∧ (enabled = false ↔ (check_cache tr c w).1 = inr disabled_response)
    ∧ (enabled = false
       ↔ (write_cache tr request w).1
         = inl (HTTPException 503 "Cache not configured")).
Proof.
  unfold health. destruct (es_client w) as [cl|] eqn:Hcl.
  - assert (Hc : is_Some (es_client w)) by (by rewrite Hcl).
    exists true. split; [done|].
    rewrite (check_cache_result tr Htr c w Hc), (write_cache_result tr Htr request w Hc).
    split; (split; [done|]).
    + destruct (check_outcome_cases w c)
        as [[e Ho]|[(Hf & Hs & Ho)|[(src & d & data & Hf & Hs & Ha & Hd & Hw & Ho)
                                   |(src & d & Hf & Hs & Ha & Hd & Ho)]]];
        rewrite Ho; by intros [=].
    + by destruct (index_fault w request); intros [=].
  - exists false. split; [done|].
    unfold check_cache, write_cache. by rewrite Hcl.
Qed.

End Answers.

(** ** The span of a write *)

(** X10. With the store configured, every write leaves one ended span
    [cache.write] carrying the backend identifier and the city as key.
    An accepted write sets [cache.write.success] true and no
    [cache.error], and the span ends normally; a faulted write sets
    [cache.write.success] false and [cache.error] to the fault's
    message, and the span ends on the exception. *)
Theorem write_cache_span {iso : IsoCodec} (request : CacheWriteRequest)
    (w : world (list span)) :
  is_Some (es_client w) →
  ∃ (attrs : gmap string attr) (failed : bool),
    tracer_state (write_cache Tracers.recorder request w).2
    = Span "cache.write" attrs true failed :: tracer_state w
    ∧ attrs !! "cache.backend" = Some (AStr "elasticsearch")
    ∧ attrs !! "cache.key" = Some (AStr (city request))
    ∧ match index_fault w request with
      | None =>
          (write_cache Tracers.recorder request w).1
          = inr (success_response (city request))
          ∧ failed = false
          ∧ attrs !! "cache.write.success" = Some (ABool true)
          ∧ attrs !! "cache.error" = None
      | Some e =>
          (write_cache Tracers.recorder request w).1
          = inl (HTTPException 500 ("Cache write failed: " +:+ exn_str e))
          ∧ failed = true
          ∧ attrs !! "cache.write.success" = Some (ABool false)
          ∧ attrs !! "cache.error" = Some (AStr (exn_str e))
      end.
Proof.
  intros [cl Hc].
  destruct w as [oc cl0 idx ts0 now out0]; simpl in Hc; subst oc.
  unfold write_cache, index_fault, cache_doc. run_recorder. unfold ES.index.
  destruct (es_fault cl0 _) as [e|]; run_recorder;
    eexists _, _; (split; [reflexivity|]); attrs_lookup; by split_and!.
Qed.

(** ** Document ids *)

Lemma doc_id_of_cons (ch : ascii) (s : string) :
  doc_id_of (String ch s) = String (id_char ch) (doc_id_of s).
Proof.
  unfold doc_id_of, id_char. cbn [Str.lower Str.replace].
  by destruct (Ascii.eqb (Str.lower_char ch) " ").
Qed.

Lemma id_char_facts (ch : ascii) :
  id_char (id_char ch) = id_char ch
  ∧ Ascii.eqb (id_char ch) " " = false
  ∧ Text.is_upper (id_char ch) = false
  ∧ id_char (Str.lower_char ch) = id_char ch
  ∧ id_char (if Ascii.eqb ch " " then "-"%char else ch) = id_char ch.
Proof. by destruct ch as [[] [] [] [] [] [] [] []]. Qed.

Lemma replace_space_cons (ch : ascii) (s : string) :
  Str.replace " " "-" (String ch s)
  = String (if Ascii.eqb ch " " then "-"%char else ch) (Str.replace " " "-" s).
Proof. cbn [Str.replace]. by destruct (Ascii.eqb ch " "). Qed.

(** X11. The document id is a normal form: it has no space and no
    ASCII capital, it is as long as the city, and deriving the id of an
    id gives it back. *)
Theorem doc_id_normal_form (c : string) :
  Text.contains " " (doc_id_of c) = false
  ∧ Text.has_upper (doc_id_of c) = false
  ∧ String.length (doc_id_of c) = String.length c
  ∧ doc_id_of (doc_id_of c) = doc_id_of c.
Proof.
  induction c as [|ch c (IH1 & IH2 & IH3 & IH4)]; [done|].
  rewrite !doc_id_of_cons.
  destruct (id_char_facts ch) as (Hidem & Hsp & Hup & _).
  cbn [Text.contains Text.has_upper String.length].
  by rewrite Hsp, Hup, IH1, IH2, IH3, IH4, Hidem.
Qed.

(** X12. Cities that differ only in the case of ASCII letters, or in
    having a hyphen where the other has a space, have the same document
    id: the id of the lower-cased city, and of the city with its spaces
    hyphenated, is the id of the city. *)
Theorem doc_id_collisions (c : string) :
  doc_id_of (Str.lower c) = doc_id_of c
  ∧ doc_id_of (Str.replace " " "-" c) = doc_id_of c.
Proof.
  induction c as [|ch c [IH1 IH2]]; [done|].
  destruct (id_char_facts ch) as (_ & _ & _ & Hlow & Hhy).
  cbn [Str.lower]. rewrite replace_space_cons, !doc_id_of_cons.
  by rewrite IH1, IH2, Hlow, Hhy.
Qed.

(** ** The endpoint setting *)

Section TextFacts.
Implicit Types (c a : ascii) (s old new : string).

Lemma rstrip_ends_with c s : Text.ends_with c (Text.rstrip c s) = false.
Proof.
  induction s as [|a s IH]; [done|]. cbn [Text.rstrip].
  destruct (Text.rstrip c s) as [|b r] eqn:Hr.
  - destruct (Ascii.eqb a c) eqn:Ha; [done|]. cbn. exact Ha.
  - exact IH.
Qed.

Lemma rstrip_empty c s : Text.rstrip c s = EmptyString ↔ Text.only c s = true.
Proof.
  induction s as [|a s IH]; [done|]. cbn [Text.rstrip Text.only].
  destruct (Text.rstrip c s) as [|b r] eqn:Hr.
  - destruct (Ascii.eqb a c); cbn; [tauto|]. split; [done|intros [=]].
  - split; [done|]. intros [_ Hs]%andb_prop. by apply IH in Hs.
Qed.

Lemma append_empty s1 s2 :
  s1 +:+ s2 = EmptyString ↔ s1 = EmptyString ∧ s2 = EmptyString.
Proof. destruct s1; cbn; [tauto|]. split; [done|by intros [? ?]]. Qed.

Lemma ends_with_cons c a s :
  s ≠ EmptyString → Text.ends_with c (String a s) = Text.ends_with c s.
Proof. by destruct s. Qed.

Lemma append_nil_r s : s +:+ EmptyString = s.
Proof.
  induction s as [|a s IH]; [done|].
  change (String a s +:+ EmptyString) with (String a (s +:+ EmptyString)).
  by rewrite IH.
Qed.

Lemma ends_with_append c s1 s2 :
  Text.ends_with c (s1 +:+ s2)
  = match s2 with
    | EmptyString => Text.ends_with c s1
    | String _ _ => Text.ends_with c s2
    end.
Proof.
  destruct s2 as [|b s2]; [by rewrite append_nil_r|].
  induction s1 as [|a s1 IH]; [done|].
  change (String a s1 +:+ String b s2) with (String a (s1 +:+ String b s2)).
  rewrite ends_with_cons; [done|]. by intros [_ ?]%append_empty.
Qed.

Lemma ends_with_skip c n s :
  Text.skip n s ≠ EmptyString →
  Text.ends_with c (Text.skip n s) = Text.ends_with c s.
Proof.
  revert s. induction n as [|n IH]; intros [|a s]; try done.
  cbn [Text.skip]. intros Hne. rewrite (IH s Hne).
  symmetry. apply ends_with_cons. intros ->. by destruct n.
Qed.

Lemma replace_from_empty fuel old new s :
  new ≠ EmptyString →
  Text.replace_from fuel old new s = EmptyString ↔ s = EmptyString.
Proof.
  intros Hnew. destruct fuel as [|fuel], s as [|a s]; try done.
  cbn [Text.replace_from]. destruct (String.prefix old (String a s)); [|done].
  split; [|done]. by intros [? _]%append_empty.
Qed.

(** Replacing by a non-empty text that does not end with [c] puts no
    [c] at the end. *)
Lemma replace_from_ends_with c fuel old new s :
  new ≠ EmptyString →
  Text.ends_with c new = false →
  Text.ends_with c s = false →
  Text.ends_with c (Text.replace_from fuel old new s) = false.
Proof.
  intros Hnew Hend. revert s.
  induction fuel as [|fuel IH]; intros [|a s] Hs; try done.
  cbn [Text.replace_from].
  destruct (String.prefix old (String a s)).
  - rewrite ends_with_append.
    destruct (Text.replace_from fuel old new _) as [|b r] eqn:Hr; [done|].
    rewrite <- Hr. apply IH.
    destruct (Text.skip (String.length old) (String a s)) as [|b' r'] eqn:Hsk;
      [done|].
    rewrite <- Hsk, ends_with_skip; [done|by rewrite Hsk].
  - destruct s as [|a' s]; [by destruct fuel|].
    rewrite ends_with_cons.
    + apply IH. by rewrite ends_with_cons in Hs.
    + by intros ?%replace_from_empty.
Qed.

Lemma replace_ends_with c a old new s :
  new ≠ EmptyString →
  Text.ends_with c new = false →
  Text.ends_with c s = false →
  Text.ends_with c (Text.replace (String a old) new s) = false.
Proof. intros. by apply replace_from_ends_with. Qed.

Lemma replace_empty a old new s :
  new ≠ EmptyString →
  Text.replace (String a old) new s = EmptyString ↔ s = EmptyString.
Proof. intros. by apply replace_from_empty. Qed.

End TextFacts.

Lemma normalize_endpoint_empty (raw : string) :
  Startup.normalize_endpoint raw = EmptyString ↔ Text.only "/" raw = true.
Proof.
  unfold Startup.normalize_endpoint.
  rewrite !replace_empty by done. apply rstrip_empty.
Qed.

(** X13. The endpoint start-up binds never ends with a slash, and it is
    empty, which disables the cache, exactly when the setting is empty
    or made of slashes only. *)
Theorem normalize_endpoint_no_trailing_slash (raw : string) :
  Text.ends_with "/" (Startup.normalize_endpoint raw) = false
  ∧ (Startup.normalize_endpoint raw = EmptyString ↔ Text.only "/" raw = true).
Proof.
  unfold Startup.normalize_endpoint. split.
  - apply replace_ends_with; [done|done|].
    apply replace_ends_with; [done|done|]. apply rstrip_ends_with.
  - apply normalize_endpoint_empty.
Qed.

(** ** Start-up *)

Section StartupFacts.
Context (connect : string → string → exn + Elasticsearch).
Context (environ : gmap string string).

Abbreviation endpoint := (Startup.endpoint_of environ).
Abbreviation index := (Startup.index_of environ).

Lemma startup_configured (st : Startup.state) (key : string) (client : Elasticsearch) :
  environ !! "ELASTICSEARCH_API" = Some key →
  endpoint ≠ EmptyString →
  key ≠ EmptyString →
  connect endpoint key = inr client →
  Startup.startup connect environ st
  = (inr (Startup.Globals endpoint (Some key) index (Some client)),
     Startup.ensure_index index (Startup.announced environ st)).
Proof.
  intros Hkey Hep Hk Hconn. unfold Startup.startup. rewrite Hkey.
  change (Startup.normalize_endpoint _) with endpoint.
  apply String.eqb_neq in Hep, Hk. rewrite Hep, Hk. cbn [negb andb].
  by rewrite Hconn.
Qed.

Lemma ensure_index_admin (st : Startup.state) :
  adm_fault (Startup.admin st) (IndicesExists index) = None →
  adm_fault (Startup.admin st) (IndicesCreate index Startup.mappings) = None →
  Startup.admin (Startup.ensure_index index st)
  = match adm_indices (Startup.admin st) !! index with
    | Some _ => Indices.received (IndicesExists index) (Startup.admin st)
    | None =>
        EsAdmin (<[index := Startup.mappings]> (adm_indices (Startup.admin st)))
          (adm_fault (Startup.admin st))
          (adm_log (Startup.admin st)
           ++ [IndicesExists index; IndicesCreate index Startup.mappings])
    end.
Proof.
  intros He Hc. unfold Startup.ensure_index, Indices.exists_. rewrite He.
  destruct (adm_indices (Startup.admin st) !! index) as [m|] eqn:Hi; [done|].
  unfold Indices.create, Indices.received. cbn [adm_fault adm_indices adm_log].
  rewrite Hc, Hi. cbn. by rewrite <- app_assoc.
Qed.

(** X14. Once the client is built, start-up cannot fail on the cluster:
    it binds the client whatever the cluster answers to the index
    requests, so [GET /health] of the service then reports
    [cache_enabled] true; it sends the cluster at most two requests,
    the first asking whether the index exists. *)
Theorem startup_survives_cluster (st : Startup.state) (key : string)
    (client : Elasticsearch) :
  environ !! "ELASTICSEARCH_API" = Some key →
  endpoint ≠ EmptyString →
  key ≠ EmptyString →
  connect endpoint key = inr client →
  let g := Startup.Globals endpoint (Some key) index (Some client) in
  let st' := (Startup.startup connect environ st).2 in
  (Startup.startup connect environ st).1 = inr g
  ∧ (∃ l, adm_log (Startup.admin st')
          = (adm_log (Startup.admin st) ++ IndicesExists index :: l)%list
          ∧ (length l <= 1)%nat)
  ∧ (∀ T (c : es_cluster) (t : T) (now : Z),
       (health (serving g c t now st')).1
       = inr (VDict [("status", VStr "healthy"); ("cache_enabled", VBool true)])).
Proof.
  intros Hkey Hep Hk Hconn g st'. subst st'.
  rewrite (startup_configured st key client Hkey Hep Hk Hconn).
  split; [done|]. split; [|done]. cbn [snd].
  unfold Startup.ensure_index, Indices.exists_, Startup.announced.
  cbn [Startup.admin Startup.print].
  destruct (adm_fault (Startup.admin st) (IndicesExists index)) as [e|].
  { exists []. split; [reflexivity|cbn; lia]. }
  destruct (adm_indices (Startup.admin st) !! index) as [m|] eqn:Hi.
  { exists []. split; [reflexivity|cbn; lia]. }
  exists [IndicesCreate index Startup.mappings]. split; [|cbn; lia].
  unfold Indices.create, Indices.received. cbn [adm_fault adm_indices adm_log].
  rewrite Hi.
  destruct (adm_fault (Startup.admin st) (IndicesCreate index Startup.mappings));
    cbn [Startup.admin Startup.print adm_log]; by rewrite <- app_assoc.
Qed.

(** X15. Without an API key, with an empty one, or with an endpoint
    that is empty or made of slashes only, start-up binds no client
    and sends the cluster no request, and the service it leaves answers
    every check with [cache_disabled] and every write with the 503
    error. *)
Theorem startup_without_settings (st : Startup.state) :
  environ !! "ELASTICSEARCH_API" = None
  ∨ environ !! "ELASTICSEARCH_API" = Some EmptyString
  ∨ Text.only "/" (Startup.getenv environ "ELASTICSEARCH_ENDPOINT" EmptyString) = true →
  ∃ g,
    (Startup.startup connect environ st).1 = inr g
    ∧ Startup.es_client g = None
    ∧ Startup.admin (Startup.startup connect environ st).2 = Startup.admin st
    ∧ (∀ T (tr : Tracer T) (iso : IsoCodec) (cl : es_cluster) (t : T) (now : Z)
         (c : string) (request : CacheWriteRequest),
         let w := serving g cl t now (Startup.startup connect environ st).2 in
         (check_cache tr c w).1 = inr disabled_response
         ∧ (write_cache tr request w).1
           = inl (HTTPException 503 "Cache not configured")).
Proof.
  intros Hoff.
  assert (Hrun : ∃ g, Startup.startup connect environ st = (inr g, Startup.announced environ st)
                      ∧ Startup.es_client g = None).
  { unfold Startup.startup.
    change (Startup.normalize_endpoint _) with endpoint.
    destruct (environ !! "ELASTICSEARCH_API") as [key|] eqn:Hkey;
      [|eexists; split; reflexivity].
    destruct Hoff as [[=]|[[= ->]|Honly]].
    - rewrite andb_false_r. eexists; split; reflexivity.
    - apply normalize_endpoint_empty in Honly.
      change (Startup.normalize_endpoint _) with endpoint in Honly.
      apply String.eqb_eq in Honly. rewrite Honly. cbn [negb andb].
      eexists; split; reflexivity. }
  destruct Hrun as (g & Hrun & Hnone). exists g. rewrite Hrun.
  split; [done|]. split; [done|]. split; [done|].
  intros T tr iso cl t now c request w.
  unfold check_cache, write_cache, w, serving. cbn [es_client]. by rewrite Hnone.
Qed.

(** X16. Against a cluster that answers, start-up leaves the cache
    index in existence without touching any index that exists: an
    index already there keeps its mappings and no creation is
    requested; a missing one is created with the mappings of
    [main.py]; and starting again changes no index and requests no
    creation. *)
Theorem startup_ensures_index (st : Startup.state) (key : string)
    (client : Elasticsearch) :
  environ !! "ELASTICSEARCH_API" = Some key →
  endpoint ≠ EmptyString →
  key ≠ EmptyString →
  connect endpoint key = inr client →
  adm_fault (Startup.admin st) (IndicesExists index) = None →
  adm_fault (Startup.admin st) (IndicesCreate index Startup.mappings) = None →
  let st1 := (Startup.startup connect environ st).2 in
  let st2 := (Startup.startup connect environ st1).2 in
  adm_indices (Startup.admin st1)
  = match adm_indices (Startup.admin st) !! index with
    | Some _ => adm_indices (Startup.admin st)
    | None => <[index := Startup.mappings]> (adm_indices (Startup.admin st))
    end
  ∧ (is_Some (adm_indices (Startup.admin st) !! index) →
     adm_log (Startup.admin st1)
     = (adm_log (Startup.admin st) ++ [IndicesExists index])%list)
  ∧ adm_indices (Startup.admin st2) = adm_indices (Startup.admin st1)
  ∧ adm_log (Startup.admin st2)
    = (adm_log (Startup.admin st1) ++ [IndicesExists index])%list.
Proof.
  intros Hkey Hep Hk Hconn He Hc st1 st2. subst st2 st1.
  rewrite !(startup_configured _ key client Hkey Hep Hk Hconn). cbn [snd].
  set (a1 := Startup.admin (Startup.ensure_index index (Startup.announced environ st))).
  assert (Ha1 : a1 = match adm_indices (Startup.admin st) !! index with
                     | Some _ => Indices.received (IndicesExists index) (Startup.admin st)
                     | None =>
                         EsAdmin (<[index := Startup.mappings]> (adm_indices (Startup.admin st)))
                           (adm_fault (Startup.admin st))
                           (adm_log (Startup.admin st)
                            ++ [IndicesExists index; IndicesCreate index Startup.mappings])
                     end).
  { unfold a1. by rewrite ensure_index_admin. }
  assert (Hthere : is_Some (adm_indices a1 !! index)).
  { rewrite Ha1. destruct (adm_indices (Startup.admin st) !! index) eqn:Hi; cbn.
    - by rewrite Hi.
    - by rewrite lookup_insert_eq. }
  assert (Hf1 : adm_fault a1 = adm_fault (Startup.admin st)).
  { rewrite Ha1. by destruct (adm_indices (Startup.admin st) !! index). }
  assert (Ha2 : Startup.admin
                  (Startup.ensure_index index
                     (Startup.announced environ
                        (Startup.ensure_index index (Startup.announced environ st))))
                = Indices.received (IndicesExists index) a1).
  { rewrite ensure_index_admin; cbn [Startup.announced Startup.print Startup.admin];
      fold a1; [|by rewrite Hf1..].
    by destruct Hthere as [m ->]. }
  split_and!.
  - fold a1. rewrite Ha1. by destruct (adm_indices (Startup.admin st) !! index).
  - intros [m Hm]. fold a1. rewrite Ha1, Hm. done.
  - by rewrite Ha2.
  - by rewrite Ha2.
Qed.

End StartupFacts.

(** ** A tracer that fails late *)

(** X17. A write is not undone by the tracer: once the span is started
    and its first two attributes are set, an accepted write has stored
    its record whatever the later tracer calls do; and if recording the
    success then raises, the caller is not told of a success. *)
Theorem write_stored_despite_tracer {T} (tr : Tracer T) {iso : IsoCodec}
    (request : CacheWriteRequest) (w : world T) (t1 t2 t3 : T) :
  is_Some (es_client w) →
  index_fault w request = None →
  start_as_current_span tr "cache.write" (tracer_state w) = inr t1 →
  set_attribute tr "cache.backend" (AStr "elasticsearch") t1 = inr t2 →
  set_attribute tr "cache.key" (AStr (city request)) t2 = inr t3 →
  es_docs (cluster (write_cache tr request w).2)
    !! (CACHE_INDEX w, doc_id_of (city request))
  = Some (cache_doc request (clock w))
  ∧ (∀ e, set_attribute tr "cache.write.success" (ABool true) t3 = inl e →
       (write_cache tr request w).1 ≠ inr (success_response (city request))).
Proof.
  intros [cl Hc] Hf Hstart Hset1 Hset2.
  destruct w as [oc cl0 idx ts0 now out0]; simpl in Hc; subst oc.
  unfold index_fault, cache_doc in *. cbn [cluster CACHE_INDEX clock tracer_state] in *.
  unfold write_cache. run_unfold. rewrite Hstart. run_cbn.
  rewrite Hset1. run_cbn. rewrite Hset2. run_cbn.
  unfold ES.index. rewrite Hf. run_cbn.
  destruct (set_attribute tr "cache.write.success" (ABool true) t3) as [e|t4];
    run_cbn.
  - destruct (set_attribute tr "cache.write.success" (ABool false) t3) as [e'|t5];
      run_cbn.
    + destruct (end_span tr true t3); cbn; by rewrite lookup_insert_eq.
    + destruct (set_attribute tr "cache.error" _ t5) as [e'|t6]; run_cbn;
        destruct (end_span tr true _); cbn; by rewrite lookup_insert_eq.
  - destruct (end_span tr false t4); cbn; rewrite lookup_insert_eq;
      (split; [done|by intros e' [=]]).
Qed.

(** ** The further runs *)

Section FurtherRuns.
Import Scenario.
#[local] Existing Instance Scenario.codec.

Example startup_then_check :
  ∃ g st,
    Startup.startup Startup.connect_any Launch.environ Launch.fresh = (inr g, st)
    ∧ Startup.ES_ENDPOINT g = "https://es.example:443"
    ∧ Startup.out st
      = ["Elasticsearch endpoint: https://es.example:443";
         "Cache index: weather-cache"; "Created index: weather-cache"]
    ∧ (check_cache Tracers.recorder "Oslo"
         (serving g healthy [] t0 st)).1 = inr not_found_response.
Proof. eexists _, _. vm_compute. by split_and!. Qed.


Lemma failed_write_stores_nothing_witness :
  es_docs (cluster (write_cache Tracers.recorder new_york (boot unreachable)).2)
  = es_docs (cluster (boot unreachable)).
Proof.
  destruct (failed_write_stores_nothing Tracers.recorder never_raises_recorder
              new_york "Oslo" (boot unreachable)
              (Exn "ConnectionError" "Connection refused")) as [Hdocs _].
  - vm_compute. by eexists.
  - vm_compute. reflexivity.
  - exact Hdocs.
Defined.


Lemma check_is_repeatable_witness :
  (check_cache Tracers.recorder "new york"
     (check_cache Tracers.recorder "Oslo" written).2).1
  = (check_cache Tracers.recorder "new york" written).1.
Proof.
  exact (check_is_repeatable Tracers.recorder never_raises_recorder
           "Oslo" "new york" written).
Defined.

Lemma freshness_decays_witness :
  ∃ a', 3601 <= a'
    ∧ (check_cache Tracers.recorder "new york"
         (at_time (t0 + seconds 7200) (at_time (t0 + seconds 3601) written))).1
      = inr (expired_response a').
Proof.
  destruct (freshness_decays Tracers.recorder never_raises_recorder
              "new york" (at_time (t0 + seconds 3601) written)
              (t0 + seconds 7200)) as [Hexp _].
  - vm_compute. by eexists.
  - apply (Hexp 3601).
    + vm_compute. reflexivity.
    + vm_compute. intros [=].
Defined.

Lemma check_cache_answers_witness :
  ∃ r, (check_cache Tracers.recorder "new york" written).1 = inr r.
Proof.
  destruct (check_cache_answers Tracers.recorder never_raises_recorder
              "new york" written) as (r & Hr & _).
  by exists r.
Defined.

Lemma health_reports_the_gate_witness :
  ∃ enabled : bool,
    (health disabled).1
    = inr (VDict [("status", VStr "healthy"); ("cache_enabled", VBool enabled)])
    ∧ (enabled = false
       ↔ (check_cache Tracers.recorder "Oslo" disabled).1 = inr disabled_response).
Proof.
  destruct (health_reports_the_gate Tracers.recorder never_raises_recorder
              "Oslo" new_york disabled) as (enabled & Hh & Hcheck & _).
  exists enabled. split; [by rewrite Hh|exact Hcheck].
Defined.

Lemma write_cache_span_witness :
  ∃ (attrs : gmap string attr) (failed : bool),
    tracer_state (write_cache Tracers.recorder new_york (boot unreachable)).2
    = [Span "cache.write" attrs true failed]
    ∧ attrs !! "cache.key" = Some (AStr "New York").
Proof.
  destruct (write_cache_span new_york (boot unreachable))
    as (attrs & failed & Hsp & _ & Hkey & _).
  - vm_compute. by eexists.
  - by exists attrs, failed.
Defined.

Lemma startup_survives_cluster_witness :
  (Startup.startup Startup.connect_any Launch.environ Launch.down).1
  = inr (Startup.Globals "https://es.example:443" (Some "secret") "weather-cache"
           (Some (EsClient "https://es.example:443" "secret"))).
Proof.
  destruct (startup_survives_cluster Startup.connect_any Launch.environ
              Launch.down "secret" (EsClient "https://es.example:443" "secret"))
    as (Hg & _).
  - vm_compute. reflexivity.
  - vm_compute. intros [=].
  - intros [=].
  - vm_compute. reflexivity.
  - rewrite Hg. vm_compute. reflexivity.
Defined.

Lemma startup_without_settings_witness :
  ∃ g, (Startup.startup Startup.connect_any Launch.slashes Launch.fresh).1 = inr g
       ∧ Startup.es_client g = None.
Proof.
  destruct (startup_without_settings Startup.connect_any Launch.slashes Launch.fresh)
    as (g & Hg & Hnone & _).
  - right; right. vm_compute. reflexivity.
  - by exists g.
Defined.

Lemma startup_ensures_index_witness :
  adm_indices
    (Startup.admin
       (Startup.startup Startup.connect_any Launch.environ Launch.fresh).2)
  = {[ "weather-cache" := Startup.mappings ]}.
Proof.
  destruct (startup_ensures_index Startup.connect_any Launch.environ
              Launch.fresh "secret" (EsClient "https://es.example:443" "secret"))
    as (Hidx & _).
  - vm_compute. reflexivity.
  - vm_compute. intros [=].
  - intros [=].
  - vm_compute. reflexivity.
  - reflexivity.
  - reflexivity.
  - rewrite Hidx. vm_compute. reflexivity.
Defined.

Lemma write_stored_despite_tracer_witness :
  es_docs (cluster (write_cache Launch.flaky new_york (boot_unit healthy)).2)
    !! ("weather-cache", "new-york")
  = Some (cache_doc new_york t0)
  ∧ (write_cache Launch.flaky new_york (boot_unit healthy)).1
    ≠ inr (success_response "New York").
Proof.
  destruct (write_stored_despite_tracer Launch.flaky new_york (boot_unit healthy)
              () () ()) as [Hdoc Hres].
  - vm_compute. by eexists.
  - vm_compute. reflexivity.
  - reflexivity.
  - reflexivity.
  - reflexivity.
  - split; [exact Hdoc|].
    apply (Hres (Exn "RuntimeError" "exporter down")). reflexivity.
Defined.

End FurtherRuns.
